(** * Task Master MCP server: a shallow embedding of [task_master_server.py]

    The server keeps an in-memory dictionary of task records and exposes five
    handlers (list, get, create, update, delete) behind HTTP Basic
    authentication and a router keyed by the function name of the path.

    Python values are embedded as the inductive type [value]; dictionaries are
    insertion-ordered association lists ([PyDict]); handlers run in a small
    monad that threads the global [tasks] dictionary, reads the clock and the
    random source, and may raise.  A Python [str] is kept as the string of its
    UTF-8 bytes: it is empty, equal to another, or ASCII exactly when the
    Python string is.  A [str] that holds a lone surrogate, which
    [json.loads] makes of an escape such as [\ud800] and which UTF-8 cannot
    encode, has no counterpart here. *)

From Stdlib Require Import ZArith String Ascii List Bool Strings.Byte.
From stdpp Require Import base tactics option strings pretty.
Import ListNotations.

Local Open Scope string_scope.
Local Open Scope Z_scope.
#[local] Set Warnings "-register-all".

(** ** Python dictionaries with string keys

    A [dict] is kept as the list of its items in insertion order, the order
    Python iterates in.  A Python dictionary never holds a key twice; on such
    lists the operations below are exactly Python's.  Every lemma is stated
    through [get], which reads the first binding of a key. *)

Module PyDict.
Section Dict.
Context {V : Type}.

(** [d.get(k)], with [None] for an absent key. *)
Fixpoint get (d : list (string * V)) (k : string) : option V :=
  match d with
  | [] => None
  | (k', v) :: d' => if String.eqb k' k then Some v else get d' k
  end.

(** [k in d]. *)
Definition contains (d : list (string * V)) (k : string) : bool :=
  match get d k with Some _ => true | None => false end.

(** [d[k] = v]: an existing key keeps its position, a new one goes last. *)
Fixpoint set (d : list (string * V)) (k : string) (v : V) : list (string * V) :=
  match d with
  | [] => [(k, v)]
  | (k', v') :: d' =>
      if String.eqb k' k then (k', v) :: d' else (k', v') :: set d' k v
  end.

(** What is left of [d] after [d.pop(k)]. *)
Fixpoint remove (d : list (string * V)) (k : string) : list (string * V) :=
  match d with
  | [] => []
  | (k', v') :: d' =>
      if String.eqb k' k then remove d' k else (k', v') :: remove d' k
  end.

(** [d.get(k, dflt)]. *)
Definition get_default (d : list (string * V)) (k : string) (dflt : V) : V :=
  match get d k with Some v => v | None => dflt end.

(** [list(d.keys())] and [list(d.values())]. *)
Definition keys (d : list (string * V)) : list string := map fst d.
Definition values (d : list (string * V)) : list V := map snd d.
End Dict.
End PyDict.

(** ** Exceptions and outcomes

    The exceptions the server can meet, all of them subclasses of
    [Exception]; [OtherException] stands for those not named here.  [str(e)]
    is the message the exception was built with; Starlette prints an
    [HTTPException] as ["<status_code>: <detail>"]. *)

Inductive exn : Type :=
  | AttributeError (msg : string)
  | TypeError (msg : string)
  | JSONDecodeError (msg : string)
  | HTTPException (status : Z) (detail : string) (hdrs : list (string * string))
  | OtherException (msg : string).

Definition exn_str (e : exn) : string :=
  match e with
  | AttributeError msg | TypeError msg | JSONDecodeError msg
  | OtherException msg => msg
  | HTTPException status detail _ => pretty status +:+ ": " +:+ detail
  end.

(** A call either returns a value or raises. *)
Inductive outcome (A : Type) : Type :=
  | Return (a : A)
  | Raise (e : exn).
Arguments Return {A} a.
Arguments Raise {A} e.

Definition outcome_bind {A B} (o : outcome A) (f : A -> outcome B) : outcome B :=
  match o with
  | Return a => f a
  | Raise e => Raise e
  end.

(** ** Credentials *)

Record HTTPBasicCredentials : Type :=
  { username : string; password : string }.

Definition USERNAME : string := "instabids".
Definition PASSWORD : string := "secure123password".

Definition is_ascii_char (c : ascii) : bool :=
  match c with Ascii _ _ _ _ _ _ _ b7 => negb b7 end.

Fixpoint is_ascii (s : string) : bool :=
  match s with
  | EmptyString => true
  | String c s' => is_ascii_char c && is_ascii s'
  end.

(** [secrets.compare_digest] on two [str]: equality, and a [TypeError] when
    either holds a character outside ASCII.  (It runs in constant time, which
    has no counterpart here.) *)
Definition compare_digest (a b : string) : outcome bool :=
  if is_ascii a && is_ascii b then Return (String.eqb a b)
  else Raise (TypeError "comparing strings with non-ASCII characters is not supported").

Definition verify_credentials (credentials : HTTPBasicCredentials)
  : outcome HTTPBasicCredentials :=
  outcome_bind (compare_digest (username credentials) USERNAME) (fun is_username_correct =>
  outcome_bind (compare_digest (password credentials) PASSWORD) (fun is_password_correct =>
  if negb (is_username_correct && is_password_correct) then
    Raise (HTTPException 401 "Invalid credentials" [("WWW-Authenticate", "Basic")])
  else Return credentials)).

(** What the dependency [HTTPBasic()] makes of the pair a request carries
    under the Basic scheme: it decodes the header with the ASCII codec and
    raises the 401 itself when that fails, so that [verify_credentials] gets
    ASCII strings only. *)
Definition http_basic (credentials : HTTPBasicCredentials)
  : outcome HTTPBasicCredentials :=
  if is_ascii (username credentials) && is_ascii (password credentials)
  then Return credentials
  else Raise (HTTPException 401 "Invalid authentication credentials"
                [("WWW-Authenticate", "Basic")]).

(** The values read from the clock and the random source during one call:
    [str(uuid.uuid4())] and [datetime.now().isoformat()]. *)
Record env : Type :=
  { uuid4 : string; now_isoformat : string }.

(** Python's [float] is kept abstract: all the server does with one is test
    it for truth ([bool(x)]) and print it ([repr(x)]), and the framework
    writes it into a response only when it is finite ([math.isfinite(x)]). *)
Class PyFloat : Type :=
  { float : Type;
    float_bool : float -> bool;
    float_repr : float -> string;
    float_finite : float -> bool }.

Section Model.

Context `{PyFloat}.

(** *** Values: what [json.loads] produces *)

Inductive value : Type :=
  | VNone
  | VBool (b : bool)
  | VInt (n : Z)
  | VFloat (x : float)
  | VStr (s : string)
  | VList (l : list value)
  | VDict (d : list (string * value)).

(** [bool(v)], the test behind [if not v]. *)
Definition truthy (v : value) : bool :=
  match v with
  | VNone => false
  | VBool b => b
  | VInt n => negb (n =? 0)
  | VFloat x => float_bool x
  | VStr s => negb (String.eqb s "")
  | VList l => match l with [] => false | _ => true end
  | VDict d => match d with [] => false | _ => true end
  end.

(** [type(v).__name__]. *)
Definition type_name (v : value) : string :=
  match v with
  | VNone => "NoneType"
  | VBool _ => "bool"
  | VInt _ => "int"
  | VFloat _ => "float"
  | VStr _ => "str"
  | VList _ => "list"
  | VDict _ => "dict"
  end.

(** The values that can be looked up in a dictionary; lists and
    dictionaries cannot be hashed. *)
Inductive hashable : Type :=
  | HNone
  | HBool (b : bool)
  | HInt (n : Z)
  | HFloat (x : float)
  | HStr (s : string).

Definition as_hashable (v : value) : option hashable :=
  match v with
  | VNone => Some HNone
  | VBool b => Some (HBool b)
  | VInt n => Some (HInt n)
  | VFloat x => Some (HFloat x)
  | VStr s => Some (HStr s)
  | VList _ | VDict _ => None
  end.

(** [str(h)], as an f-string formats it. *)
Definition py_str (h : hashable) : string :=
  match h with
  | HNone => "None"
  | HBool true => "True"
  | HBool false => "False"
  | HInt n => pretty n
  | HFloat x => float_repr x
  | HStr s => s
  end.

(** A task record is a dictionary; [tasks] maps an id to its record. *)
Definition record : Type := list (string * value).
Definition store : Type := list (string * record).

(** The item of [ts] under the key [h].  The keys of [tasks] are [str], and
    only a [str] equals a [str]. *)
Definition find (ts : store) (h : hashable) : option (string * record) :=
  match h with
  | HStr s => option_map (pair s) (PyDict.get ts s)
  | _ => None
  end.

(** *** The handler monad: the global [tasks], the clock and the random
    source, and exceptions *)

Definition M (A : Type) : Type := env -> store -> outcome A * store.

#[local] Instance M_ret : MRet M := fun A a _ ts => (Return a, ts).
#[local] Instance M_bind : MBind M := fun A B f m e ts =>
  match m e ts with
  | (Return a, ts') => f a e ts'
  | (Raise x, ts') => (Raise x, ts')
  end.

Definition raise {A} (x : exn) : M A := fun _ ts => (Raise x, ts).
Definition read_tasks : M store := fun _ ts => (Return ts, ts).
Definition write_tasks (ts' : store) : M unit := fun _ _ => (Return tt, ts').
Definition uuid_uuid4 : M string := fun e ts => (Return (uuid4 e), ts).
Definition datetime_now : M string := fun e ts => (Return (now_isoformat e), ts).
Definition lift {A} (o : outcome A) : M A := fun _ ts => (o, ts).

(** [try: m  except Exception as e: h e]. *)
Definition try_except {A} (m : M A) (h : exn -> M A) : M A := fun e ts =>
  match m e ts with
  | (Return a, ts') => (Return a, ts')
  | (Raise x, ts') => h x e ts'
  end.

Definition is_dict (v : value) : bool :=
  match v with VDict _ => true | _ => false end.

(** The [AttributeError] of [v.get] on a value that is no dictionary, and the
    [TypeError] of hashing a list or a dictionary. *)
Definition no_get (v : value) : exn :=
  AttributeError ("'" +:+ type_name v +:+ "' object has no attribute 'get'").

Definition unhashable (v : value) : exn :=
  TypeError ("unhashable type: '" +:+ type_name v +:+ "'").

(** [parameters.get(key, default)]. *)
Definition dict_get (parameters : value) (key : string) (dflt : value) : M value :=
  match parameters with
  | VDict d => mret (PyDict.get_default d key dflt)
  | _ => raise (no_get parameters)
  end.

(** Hashing a key, as every dictionary lookup does first. *)
Definition hash (v : value) : M hashable :=
  match as_hashable v with
  | Some h => mret h
  | None => raise (unhashable v)
  end.

Definition error (msg : string) : value := VDict [("error", VStr msg)].

(** *** In-memory task storage: the two seed records *)

Definition tasks : store :=
  [ ("task-001",
     [ ("id", VStr "task-001");
       ("title", VStr "Implement MCP server");
       ("description", VStr "Create a working MCP server implementation");
       ("status", VStr "in_progress");
       ("priority", VStr "high");
       ("created_at", VStr "2025-04-24T12:00:00Z");
       ("due_date", VStr "2025-04-26T12:00:00Z") ]);
    ("task-002",
     [ ("id", VStr "task-002");
       ("title", VStr "Test relay proxy");
       ("description", VStr "Test the relay proxy with the MCP server");
       ("status", VStr "pending");
       ("priority", VStr "medium");
       ("created_at", VStr "2025-04-24T12:30:00Z");
       ("due_date", VStr "2025-04-27T12:00:00Z") ]) ].

(** *** Handler functions *)

Definition not_found (key : hashable) : value :=
  error ("Task with ID " +:+ py_str key +:+ " not found").

Definition handle_list_tasks (parameters : value) : M value :=
  ts ← read_tasks;
  mret (VDict [("tasks", VList (map VDict (PyDict.values ts)))]).

Definition handle_get_task (parameters : value) : M value :=
  task_id ← dict_get parameters "task_id" VNone;
  if negb (truthy task_id) then mret (error "task_id parameter is required")
  else
    key ← hash task_id;
    ts ← read_tasks;
    match find ts key with
    | None => mret (not_found key)
    | Some (_, task) =>
        if negb (truthy (VDict task)) then mret (not_found key)
        else mret (VDict [("task", VDict task)])
    end.

Definition handle_create_task (parameters : value) : M value :=
  title ← dict_get parameters "title" VNone;
  if negb (truthy title) then mret (error "title parameter is required")
  else
    description ← dict_get parameters "description" (VStr "");
    priority ← dict_get parameters "priority" (VStr "medium");
    due_date ← dict_get parameters "due_date" VNone;
    u ← uuid_uuid4;
    let task_id := "task-" +:+ substring 0%nat 8%nat u in
    created_at ← datetime_now;
    let task :=
      [ ("id", VStr task_id);
        ("title", title);
        ("description", description);
        ("status", VStr "pending");
        ("priority", priority);
        ("created_at", VStr created_at);
        ("due_date", due_date) ] in
    ts ← read_tasks;
    write_tasks (PyDict.set ts task_id task);;
    mret (VDict [("task", VDict task); ("task_id", VStr task_id)]).

(** One turn of the loop of the update handler:
    [if field in parameters: task[field] = parameters[field]].  The handler
    reaches the loop only with a [dict] for [parameters]. *)
Definition update_field (parameters : value) (task : record) (field : string) : record :=
  match parameters with
  | VDict d =>
      match PyDict.get d field with
      | Some v => PyDict.set task field v
      | None => task
      end
  | _ => task
  end.

Definition update_fields : list string :=
  ["title"; "description"; "status"; "priority"; "due_date"].

(** [task] is the very object [tasks] holds, so the assignments of the loop
    show in the store. *)
Definition handle_update_task (parameters : value) : M value :=
  task_id ← dict_get parameters "task_id" VNone;
  if negb (truthy task_id) then mret (error "task_id parameter is required")
  else
    key ← hash task_id;
    ts ← read_tasks;
    match find ts key with
    | None => mret (not_found key)
    | Some (k, task) =>
        if negb (truthy (VDict task)) then mret (not_found key)
        else
          let task' := fold_left (update_field parameters) update_fields task in
          write_tasks (PyDict.set ts k task');;
          mret (VDict [("task", VDict task')])
    end.

Definition handle_delete_task (parameters : value) : M value :=
  task_id ← dict_get parameters "task_id" VNone;
  if negb (truthy task_id) then mret (error "task_id parameter is required")
  else
    key ← hash task_id;
    ts ← read_tasks;
    match find ts key with
    | None => mret (not_found key)
    | Some (k, deleted_task) =>
        write_tasks (PyDict.remove ts k);;
        mret (VDict [("success", VBool true); ("deleted_task", VDict deleted_task)])
    end.

(** Map of function names to handler functions. *)
Definition handler : Type := value -> M value.

Definition handler_map : list (string * handler) :=
  [ ("list_tasks", handle_list_tasks);
    ("get_task", handle_get_task);
    ("create_task", handle_create_task);
    ("update_task", handle_update_task);
    ("delete_task", handle_delete_task) ].

(** *** The route [POST /mcp/{function_name}] *)

(** [json.loads], from the standard library, applied to the bytes of a
    request body. *)
Class JSONLoads : Type :=
  { json_loads : list byte -> outcome value }.
Context `{JSONLoads}.

(** The two [except] clauses of the route: what is returned for an
    exception raised inside the [try]. *)
Definition caught (x : exn) : value :=
  match x with
  | JSONDecodeError _ => error "Invalid JSON in request body"
  | _ => error (exn_str x)
  end.

(** The body of the route, over any map of handlers.  The calls to the
    logger are left out. *)
Definition handle_mcp_request_with (hm : list (string * handler))
    (function_name : string) (body : list byte) : M value :=
  try_except
    (parameters ← lift (json_loads body);
     match PyDict.get hm function_name with
     | None => mret (error ("Function " +:+ function_name +:+ " not supported"))
     | Some h =>
         result ← h parameters;
         mret result
     end)
    (fun x => mret (caught x)).

Definition handle_mcp_request : string -> list byte -> M value :=
  handle_mcp_request_with handler_map.

(** What FastAPI sends back: status code, extra headers, JSON content. *)
Record response : Type :=
  { status_code : Z; headers : list (string * string); content : value }.

(** Whether the framework can write a value out as JSON: it calls
    [json.dumps] with [allow_nan=False], which raises a ValueError on a NaN
    or an infinite float anywhere in the value.  (The strings kept here can
    all be encoded; see the note on lone surrogates at the head of the
    file.) *)
Fixpoint serialisable (v : value) : bool :=
  match v with
  | VNone | VBool _ | VInt _ | VStr _ => true
  | VFloat x => float_finite x
  | VList l => forallb serialisable l
  | VDict d => forallb (fun item => serialisable (snd item)) d
  end.

Definition internal_server_error : response :=
  {| status_code := 500; headers := [];
     content := VStr "Internal Server Error" |}.

(** FastAPI answers a returned dictionary with status 200 when it can write
    it out as JSON; the writing happens after the route has returned, outside
    its [try], and a failure there is answered with status 500 like any other
    exception that is no [HTTPException].  An [HTTPException] is answered
    with its own status, headers and detail. *)
Definition render (o : outcome value) : response :=
  match o with
  | Return result =>
      if serialisable result
      then {| status_code := 200; headers := []; content := result |}
      else internal_server_error
  | Raise (HTTPException status detail hdrs) =>
      {| status_code := status; headers := hdrs;
         content := VDict [("detail", VStr detail)] |}
  | Raise _ => internal_server_error
  end.

(** A request to the route that carries a pair of credentials: the
    dependencies [HTTPBasic()] and [verify_credentials] are resolved first,
    and the body of the route runs only when both return. *)
Definition post_mcp_with (hm : list (string * handler))
    (credentials : HTTPBasicCredentials) (function_name : string)
    (body : list byte) (e : env) (ts : store) : response * store :=
  match outcome_bind (http_basic credentials) verify_credentials with
  | Raise x => (render (Raise x), ts)
  | Return _ =>
      let (o, ts') := handle_mcp_request_with hm function_name body e ts in
      (render o, ts')
  end.

Definition post_mcp : HTTPBasicCredentials -> string -> list byte ->
                      env -> store -> response * store :=
  post_mcp_with handler_map.

(** ** The stores the server can be in, and the errors of a request *)

(** The five handlers. *)
Definition handlers : list handler := PyDict.values handler_map.

(** A store is reachable when it is the seed store or comes from a reachable
    store by one call of a handler, with any parameters, at any time and
    with any random token. *)
Inductive reachable : store -> Prop :=
  | reachable_seed : reachable tasks
  | reachable_call (h : handler) (parameters : value) (e : env) (ts : store) :
      reachable ts -> In h handlers -> reachable (snd (h parameters e ts)).

(** Every key is a non-empty string and names the record stored under it. *)
Definition store_inv (ts : store) : Prop :=
  forall k t, PyDict.get ts k = Some t ->
    k <> "" /\ PyDict.get t "id" = Some (VStr k).

(** The parameter an operation cannot do without. *)
Definition required_parameter (function_name : string) : option string :=
  if String.eqb function_name "create_task" then Some "title"
  else if String.eqb function_name "get_task" then Some "task_id"
  else if String.eqb function_name "update_task" then Some "task_id"
  else if String.eqb function_name "delete_task" then Some "task_id"
  else None.

(** The errors of a request that has passed authentication, by the category
    of the error taxonomy: malformed body, unsupported function name, missing
    required parameter, entity not found, unexpected failure. *)
Inductive fault (function_name : string) (body : list byte) (e : env) (ts : store)
  : Prop :=
  | malformed_body msg :
      json_loads body = Raise (JSONDecodeError msg) ->
      fault function_name body e ts
  | unsupported_function parameters :
      json_loads body = Return parameters ->
      PyDict.contains handler_map function_name = false ->
      fault function_name body e ts
  | missing_parameter d name :
      json_loads body = Return (VDict d) ->
      required_parameter function_name = Some name ->
      truthy (PyDict.get_default d name VNone) = false ->
      fault function_name body e ts
  | entity_not_found d key :
      json_loads body = Return (VDict d) ->
      required_parameter function_name = Some "task_id" ->
      truthy (PyDict.get_default d "task_id" VNone) = true ->
      as_hashable (PyDict.get_default d "task_id" VNone) = Some key ->
      find ts key = None ->
      fault function_name body e ts
  | unexpected_in_loads x :
      json_loads body = Raise x ->
      fault function_name body e ts
  | unexpected_in_handler parameters h x :
      json_loads body = Return parameters ->
      PyDict.get handler_map function_name = Some h ->
      fst (h parameters e ts) = Raise x ->
      fault function_name body e ts.

(** The answer to a request that fails authentication. *)
Definition unauthorized : response :=
  {| status_code := 401;
     headers := [("WWW-Authenticate", "Basic")];
     content := VDict [("detail", VStr "Invalid credentials")] |}.

(** *** The other routes *)

(** [GET /]: information about the server. *)
Definition root : value :=
  VDict
    [ ("name", VStr "Task Master MCP Server");
      ("version", VStr "1.0.0");
      ("description", VStr "MCP server for task management");
      ("functions", VList (map VStr (PyDict.keys handler_map))) ].

(** [GET /health]. *)
Definition health_check : value := VDict [("status", VStr "healthy")].

(** *** The shape of the stored records *)

(** The fields of a task record, in the order the create handler writes
    them, and the parameters that handler reads. *)
Definition task_fields : list string :=
  ["id"; "title"; "description"; "status"; "priority"; "created_at"; "due_date"].

Definition create_fields : list string :=
  ["title"; "description"; "priority"; "due_date"].

(** Every key starts with "task-" and every record has the seven fields. *)
Definition store_schema (ts : store) : Prop :=
  forall k t, PyDict.get ts k = Some t ->
    String.prefix "task-" k = true /\ PyDict.keys t = task_fields.

End Model.

(** ** Sample data for the examples *)

(** Documents without floating-point numbers. *)
Definition no_float : PyFloat :=
  {| float := Empty_set;
     float_bool := fun x => match x with end;
     float_repr := fun x => match x with end;
     float_finite := fun x => match x with end |}.

(** A stand-in for [json.loads] that knows the two bodies the examples send,
    [b"{}"] and [b""], and rejects every other body. *)
Definition loads_example : @JSONLoads no_float :=
  {| json_loads := fun body =>
       match body with
       | [x7b; x7d] => Return (VDict [])
       | _ => Raise (JSONDecodeError "Expecting value: line 1 column 1 (char 0)")
       end |}.

(** Parameter bags. *)
Definition write_spec : list (string * @value no_float) :=
  [("title", VStr "Write spec")].

Definition mark_done : list (string * @value no_float) :=
  [("task_id", VStr "task-001"); ("status", VStr "done"); ("owner", VStr "sam")].

Definition empty_task_id : list (string * @value no_float) :=
  [("task_id", VStr "")].

Definition unknown_task_id : list (string * @value no_float) :=
  [("task_id", VStr "task-999")].

Definition good_credentials : HTTPBasicCredentials :=
  {| username := "instabids"; password := "secure123password" |}.

(** Two calls whose random tokens differ and start with the same eight
    characters. *)
Definition env_a : env :=
  {| uuid4 := "3f2b8c1a-5d4e-4f6a-9b7c-0123456789ab";
     now_isoformat := "2025-04-25T09:00:00.000001" |}.

Definition env_b : env :=
  {| uuid4 := "3f2b8c1a-77aa-4c10-8e2d-fedcba987654";
     now_isoformat := "2025-04-25T09:00:05.120000" |}.

(** More parameter bags, credentials and bodies. *)
Definition write_spec_as_done : list (string * @value no_float) :=
  [ ("title", VStr "Write spec"); ("status", VStr "done");
    ("id", VStr "task-001"); ("created_at", VStr "yesterday") ].

Definition empty_title : list (string * @value no_float) :=
  [("title", VStr ""); ("description", VStr "no title")].

Definition second_task_id : list (string * @value no_float) :=
  [("task_id", VStr "task-002")].

Definition wrong_password : HTTPBasicCredentials :=
  {| username := "instabids"; password := "secure123" |}.

(** A username that is not ASCII (an e with an acute accent, in UTF-8). *)
Definition accented_credentials : HTTPBasicCredentials :=
  {| username := String "195"%char (String "169"%char "");
     password := "secure123password" |}.

(** The floats reduced to the one value NaN: it is truthy, prints as "nan"
    and is not finite. *)
Definition nan_float : PyFloat :=
  {| float := unit;
     float_bool := fun _ => true;
     float_repr := fun _ => "nan";
     float_finite := fun _ => false |}.

(** [b'{"title":NaN}'], which [json.loads] accepts, and a stand-in for
    [json.loads] that knows this body and rejects every other body. *)
Definition body_nan_title : list byte :=
  [x7b; x22; x74; x69; x74; x6c; x65; x22; x3a; x4e; x61; x4e; x7d].

Definition nan_title : list (string * @value nan_float) :=
  [("title", @VFloat nan_float tt)].

Definition loads_nan : @JSONLoads nan_float :=
  {| json_loads := fun body =>
       match body with
       | [x7b; x22; x74; x69; x74; x6c; x65; x22; x3a; x4e; x61; x4e; x7d] =>
           Return (VDict nan_title)
       | _ => Raise (JSONDecodeError "Expecting value: line 1 column 1 (char 0)")
       end |}.

(** [b"[]"] and [b'{"task_id":[1]}']. *)
Definition body_list : list byte := [x5b; x5d].

Definition body_task_id_list : list byte :=
  [x7b; x22; x74; x61; x73; x6b; x5f; x69; x64; x22; x3a; x5b; x31; x5d; x7d].

(** A stand-in for [json.loads] that knows these two bodies and rejects
    every other body. *)
Definition loads_more : @JSONLoads no_float :=
  {| json_loads := fun body =>
       match body with
       | [x5b; x5d] => Return (VList [])
       | [x7b; x22; x74; x61; x73; x6b; x5f; x69; x64; x22; x3a; x5b; x31; x5d; x7d] =>
           Return (VDict [("task_id", VList [VInt 1])])
       | _ => Raise (JSONDecodeError "Expecting value: line 1 column 1 (char 0)")
       end |}.

(** * Properties *)

(** ** Facts on dictionaries *)

Module PyDictFacts.
Import PyDict.
Section Facts.
Context {V : Type}.
Implicit Types (d : list (string * V)) (k : string) (v : V).

Lemma get_set_eq d k v : get (set d k v) k = Some v.
Proof.
  induction d as [|[k' v'] d IH]; simpl.
  - now rewrite String.eqb_refl.
  - destruct (String.eqb k' k) eqn:E; simpl; rewrite E; auto.
Qed.

Lemma get_set_ne d k k' v : k <> k' -> get (set d k v) k' = get d k'.
Proof.
  intros Hne. induction d as [|[k0 v0] d IH]; simpl.
  - destruct (String.eqb_spec k k'); congruence.
  - destruct (String.eqb_spec k0 k) as [->|Hk]; simpl.
    + destruct (String.eqb_spec k k'); congruence.
    + now rewrite IH.
Qed.

Lemma get_remove_eq d k : get (remove d k) k = None.
Proof.
  induction d as [|[k' v'] d IH]; simpl; auto.
  destruct (String.eqb k' k) eqn:E; simpl; rewrite ?E; auto.
Qed.

Lemma get_remove_ne d k k' : k <> k' -> get (remove d k) k' = get d k'.
Proof.
  intros Hne. induction d as [|[k0 v0] d IH]; simpl; auto.
  destruct (String.eqb_spec k0 k) as [->|Hk]; simpl.
  - destruct (String.eqb_spec k k'); congruence.
  - now rewrite IH.
Qed.

(** Storing again the value a key already has changes nothing. *)
Lemma set_same d k v : get d k = Some v -> set d k v = d.
Proof.
  induction d as [|[k' v'] d IH]; simpl; [discriminate|].
  destruct (String.eqb k' k) eqn:E.
  - now intros [= ->].
  - intros H. now rewrite IH.
Qed.

Lemma contains_true d k : contains d k = true <-> exists v, get d k = Some v.
Proof.
  unfold contains. destruct (get d k) as [v|]; split; eauto.
  - discriminate.
  - intros [v [=]].
Qed.

Lemma contains_false d k : contains d k = false <-> get d k = None.
Proof. unfold contains. destruct (get d k); split; congruence. Qed.

Lemma get_In_keys d k v : get d k = Some v -> In k (keys d).
Proof.
  induction d as [|[k' v'] d IH]; simpl; [discriminate|].
  destruct (String.eqb_spec k' k); auto.
Qed.

Lemma In_keys_get d k : In k (keys d) -> exists v, get d k = Some v.
Proof.
  induction d as [|[k' v'] d IH]; simpl; [tauto|].
  intros [->|Hin].
  - rewrite String.eqb_refl. eauto.
  - destruct (String.eqb k' k); eauto.
Qed.

Lemma keys_set_absent d k v : get d k = None -> keys (set d k v) = (keys d ++ [k])%list.
Proof.
  induction d as [|[k' v'] d IH]; simpl; auto.
  destruct (String.eqb k' k); [discriminate|].
  intros H. simpl. now rewrite IH.
Qed.

Lemma keys_set_present d k v v' : get d k = Some v' -> keys (set d k v) = keys d.
Proof.
  induction d as [|[k0 v0] d IH]; simpl; [discriminate|].
  destruct (String.eqb k0 k); auto.
  intros H. simpl. now rewrite IH.
Qed.

Lemma In_keys_remove d k k' : In k' (keys (remove d k)) -> In k' (keys d).
Proof.
  induction d as [|[k0 v0] d IH]; simpl; auto.
  destruct (String.eqb k0 k); simpl; intuition.
Qed.

Lemma In_keys_set d k v k' : In k' (keys (set d k v)) -> k' = k \/ In k' (keys d).
Proof.
  induction d as [|[k0 v0] d IH]; simpl.
  - intuition.
  - destruct (String.eqb k0 k); simpl; intuition.
Qed.

(** The operations keep a dictionary a dictionary: no key appears twice. *)
Lemma NoDup_keys_set d k v : List.NoDup (keys d) -> List.NoDup (keys (set d k v)).
Proof.
  induction d as [|[k0 v0] d IH]; simpl.
  - intros _. constructor; [simpl; tauto|constructor].
  - intros Hnd. inversion Hnd as [|? ? Hnotin Hnd']; subst.
    destruct (String.eqb_spec k0 k) as [->|Hne]; simpl.
    + now constructor.
    + constructor; auto.
      intros Hin. apply In_keys_set in Hin as [->|Hin]; auto.
Qed.

Lemma NoDup_keys_remove d k : List.NoDup (keys d) -> List.NoDup (keys (remove d k)).
Proof.
  induction d as [|[k0 v0] d IH]; simpl; auto.
  intros Hnd. inversion Hnd as [|? ? Hnotin Hnd']; subst.
  destruct (String.eqb k0 k); auto.
  simpl. constructor; auto.
  intros Hin. apply Hnotin. eapply In_keys_remove; eauto.
Qed.

Lemma remove_absent d k : get d k = None -> remove d k = d.
Proof.
  induction d as [|[k' v'] d IH]; simpl; auto.
  destruct (String.eqb k' k); [discriminate|].
  intros H. now rewrite IH.
Qed.

Lemma contains_keys d k : contains d k = false <-> (forall k', In k' (keys d) -> k' <> k).
Proof.
  rewrite contains_false. split.
  - intros Hnone k' Hin ->. destruct (In_keys_get _ _ Hin). congruence.
  - intros Hall. destruct (get d k) as [v|] eqn:E; auto.
    exfalso. exact (Hall k (get_In_keys _ _ _ E) eq_refl).
Qed.
Lemma set_set d k v : set (set d k v) k v = set d k v.
Proof. apply set_same, get_set_eq. Qed.

(** Assigning a new key and popping it again gives the dictionary back. *)
Lemma remove_set_absent d k v : get d k = None -> remove (set d k v) k = d.
Proof.
  induction d as [|[k' v'] d IH]; simpl.
  - now rewrite String.eqb_refl.
  - destruct (String.eqb k' k) eqn:E; [discriminate|].
    intros H. simpl. rewrite E. now rewrite IH.
Qed.

Lemma values_set_absent d k v :
  get d k = None -> values (set d k v) = (values d ++ [v])%list.
Proof.
  induction d as [|[k' v'] d IH]; simpl; auto.
  destruct (String.eqb k' k); [discriminate|].
  intros H. simpl. now rewrite IH.
Qed.

Lemma keys_remove d k :
  keys (remove d k) = List.filter (fun k' => negb (String.eqb k' k)) (keys d).
Proof.
  induction d as [|[k' v'] d IH]; simpl; auto.
  destruct (String.eqb k' k); simpl; now rewrite IH.
Qed.

(** In a dictionary, an item of the list is what [get] reads under its key. *)
Lemma In_get d k v : List.NoDup (keys d) -> In (k, v) d -> get d k = Some v.
Proof.
  induction d as [|[k' v'] d IH]; simpl; [tauto|].
  intros Hnd [[= -> ->]|Hin].
  - now rewrite String.eqb_refl.
  - inversion Hnd as [|? ? Hnotin Hnd']; subst.
    destruct (String.eqb_spec k' k) as [->|Hne]; auto.
    exfalso. apply Hnotin. change (In (fst (k, v)) (map fst d)).
    now apply in_map.
Qed.
End Facts.
End PyDictFacts.

(** ** The handlers, case by case *)

Section Properties.
Context {PF : PyFloat}.

#[local] Ltac run_handler :=
  unfold handle_list_tasks, handle_get_task, handle_create_task,
    handle_update_task, handle_delete_task, dict_get, hash, raise, read_tasks,
    write_tasks, uuid_uuid4, datetime_now, lift, mbind, M_bind, mret, M_ret;
  simpl.

Lemma handle_list_tasks_eq parameters e ts :
  handle_list_tasks parameters e ts =
    (Return (VDict [("tasks", VList (map VDict (PyDict.values ts)))]), ts).
Proof. reflexivity. Qed.

Lemma handle_get_task_not_dict parameters e ts :
  is_dict parameters = false ->
  handle_get_task parameters e ts = (Raise (no_get parameters), ts).
Proof. destruct parameters; simpl; intros; try discriminate; reflexivity. Qed.

Lemma handle_create_task_not_dict parameters e ts :
  is_dict parameters = false ->
  handle_create_task parameters e ts = (Raise (no_get parameters), ts).
Proof. destruct parameters; simpl; intros; try discriminate; reflexivity. Qed.

Lemma handle_update_task_not_dict parameters e ts :
  is_dict parameters = false ->
  handle_update_task parameters e ts = (Raise (no_get parameters), ts).
Proof. destruct parameters; simpl; intros; try discriminate; reflexivity. Qed.

Lemma handle_delete_task_not_dict parameters e ts :
  is_dict parameters = false ->
  handle_delete_task parameters e ts = (Raise (no_get parameters), ts).
Proof. destruct parameters; simpl; intros; try discriminate; reflexivity. Qed.

Lemma handle_get_task_eq d e ts :
  handle_get_task (VDict d) e ts =
    let task_id := PyDict.get_default d "task_id" VNone in
    if truthy task_id then
      match as_hashable task_id with
      | None => (Raise (unhashable task_id), ts)
      | Some key =>
          match find ts key with
          | Some (_, (_ :: _) as task) => (Return (VDict [("task", VDict task)]), ts)
          | _ => (Return (not_found key), ts)
          end
      end
    else (Return (error "task_id parameter is required"), ts).
Proof.
  run_handler. destruct (truthy _); simpl; auto.
  destruct (as_hashable _) as [key|]; simpl; auto.
  destruct (find ts key) as [[k [|]]|]; reflexivity.
Qed.

Lemma handle_create_task_eq d e ts :
  handle_create_task (VDict d) e ts =
    let title := PyDict.get_default d "title" VNone in
    let task_id := "task-" +:+ substring 0 8 (uuid4 e) in
    let task :=
      [ ("id", VStr task_id);
        ("title", title);
        ("description", PyDict.get_default d "description" (VStr ""));
        ("status", VStr "pending");
        ("priority", PyDict.get_default d "priority" (VStr "medium"));
        ("created_at", VStr (now_isoformat e));
        ("due_date", PyDict.get_default d "due_date" VNone) ] in
    if truthy title then
      (Return (VDict [("task", VDict task); ("task_id", VStr task_id)]),
       PyDict.set ts task_id task)
    else (Return (error "title parameter is required"), ts).
Proof. run_handler. destruct (truthy _); reflexivity. Qed.

Lemma handle_update_task_eq d e ts :
  handle_update_task (VDict d) e ts =
    let task_id := PyDict.get_default d "task_id" VNone in
    if truthy task_id then
      match as_hashable task_id with
      | None => (Raise (unhashable task_id), ts)
      | Some key =>
          match find ts key with
          | Some (k, (_ :: _) as task) =>
              let task' := fold_left (update_field (VDict d)) update_fields task in
              (Return (VDict [("task", VDict task')]), PyDict.set ts k task')
          | _ => (Return (not_found key), ts)
          end
      end
    else (Return (error "task_id parameter is required"), ts).
Proof.
  run_handler. destruct (truthy _); simpl; auto.
  destruct (as_hashable _) as [key|]; simpl; auto.
  destruct (find ts key) as [[k [|]]|]; reflexivity.
Qed.

Lemma handle_delete_task_eq d e ts :
  handle_delete_task (VDict d) e ts =
    let task_id := PyDict.get_default d "task_id" VNone in
    if truthy task_id then
      match as_hashable task_id with
      | None => (Raise (unhashable task_id), ts)
      | Some key =>
          match find ts key with
          | Some (k, deleted_task) =>
              (Return (VDict [("success", VBool true);
                              ("deleted_task", VDict deleted_task)]),
               PyDict.remove ts k)
          | None => (Return (not_found key), ts)
          end
      end
    else (Return (error "task_id parameter is required"), ts).
Proof.
  run_handler. destruct (truthy _); simpl; auto.
  destruct (as_hashable _) as [key|]; simpl; auto.
  destruct (find ts key) as [[k t]|]; reflexivity.
Qed.

(** ** Lookups in the store and the loop of the update handler *)

Lemma find_Some ts key k t :
  find ts key = Some (k, t) <-> key = HStr k /\ PyDict.get ts k = Some t.
Proof.
  destruct key; simpl; try (split; [discriminate | intros [[=] _]]).
  destruct (PyDict.get ts s) as [t'|] eqn:E; simpl; split.
  - intros [= <- <-]. auto.
  - intros [[= <-] Hget]. congruence.
  - discriminate.
  - intros [[= <-] Hget]. congruence.
Qed.

Lemma find_str ts k : find ts (HStr k) = option_map (pair k) (PyDict.get ts k).
Proof. reflexivity. Qed.

Lemma update_field_other parameters t field f :
  f <> field ->
  PyDict.get (update_field parameters t field) f = PyDict.get t f.
Proof.
  intros Hne. destruct parameters; simpl; auto.
  destruct (PyDict.get d field); auto.
  now apply PyDictFacts.get_set_ne.
Qed.

Lemma update_field_absent d t field :
  PyDict.get d field = None -> update_field (VDict d) t field = t.
Proof. intros E. simpl. now rewrite E. Qed.

(** The loop leaves alone every field it does not run over, and every field
    the parameters do not hold. *)
Lemma update_loop_frame d fields t f :
  ~ In f fields \/ PyDict.get d f = None ->
  PyDict.get (fold_left (update_field (VDict d)) fields t) f = PyDict.get t f.
Proof.
  revert t. induction fields as [|field fields IH]; intros t Hf; cbn [fold_left]; auto.
  rewrite IH.
  - destruct (String.eqb_spec f field) as [->|Hne].
    + destruct Hf as [Hf|Hf]; [exfalso; apply Hf; now left|].
      now rewrite update_field_absent.
    + now apply update_field_other.
  - destruct Hf as [Hf|Hf]; auto. left. intros Hin. apply Hf. now right.
Qed.

(** The loop reads the parameters only at the fields it runs over. *)
Lemma update_loop_agree d1 d2 fields t :
  (forall f, In f fields -> PyDict.get d1 f = PyDict.get d2 f) ->
  fold_left (update_field (VDict d1)) fields t =
  fold_left (update_field (VDict d2)) fields t.
Proof.
  revert t. induction fields as [|field fields IH]; intros t Hagree; cbn [fold_left]; auto.
  replace (update_field (VDict d1) t field) with (update_field (VDict d2) t field)
    by (simpl; now rewrite (Hagree field) by now left).
  apply IH. intros f Hin. apply Hagree. now right.
Qed.

Lemma task_id_nonempty u : truthy (VStr ("task-" +:+ u)) = true.
Proof. reflexivity. Qed.

(** ** The invariant of the store *)

Lemma store_inv_seed : store_inv tasks.
Proof.
  intros k t. unfold tasks. cbn [PyDict.get].
  destruct (String.eqb_spec "task-001" k) as [<-|_].
  - intros [= <-]. split; [discriminate|reflexivity].
  - destruct (String.eqb_spec "task-002" k) as [<-|_]; [|discriminate].
    intros [= <-]. split; [discriminate|reflexivity].
Qed.

Lemma store_inv_set ts k t :
  store_inv ts -> k <> "" -> PyDict.get t "id" = Some (VStr k) ->
  store_inv (PyDict.set ts k t).
Proof.
  intros Hinv Hk Hid k' t'. destruct (String.eqb_spec k k') as [<-|Hne].
  - rewrite PyDictFacts.get_set_eq. now intros [= <-].
  - rewrite PyDictFacts.get_set_ne by assumption. apply Hinv.
Qed.

Lemma store_inv_remove ts k : store_inv ts -> store_inv (PyDict.remove ts k).
Proof.
  intros Hinv k' t'. destruct (String.eqb_spec k k') as [<-|Hne].
  - now rewrite PyDictFacts.get_remove_eq.
  - rewrite PyDictFacts.get_remove_ne by assumption. apply Hinv.
Qed.

Lemma handle_get_task_store parameters e ts :
  snd (handle_get_task parameters e ts) = ts.
Proof.
  destruct (is_dict parameters) eqn:Hd.
  - destruct parameters; try discriminate. rewrite handle_get_task_eq. cbv zeta.
    destruct (truthy _); auto. destruct (as_hashable _) as [key|]; auto.
    destruct (find ts key) as [[k [|]]|]; reflexivity.
  - now rewrite handle_get_task_not_dict.
Qed.

Lemma store_inv_call h parameters e ts :
  In h handlers -> store_inv ts -> store_inv (snd (h parameters e ts)).
Proof.
  intros Hin Hinv.
  assert (Hnd : is_dict parameters = false -> forall x : exn, store_inv (snd (Raise (A:=value) x, ts)))
    by (intros; assumption).
  simpl in Hin. destruct Hin as [<-|[<-|[<-|[<-|[<-|[]]]]]].
  - assumption.
  - now rewrite handle_get_task_store.
  - destruct (is_dict parameters) eqn:Hd;
      [|rewrite handle_create_task_not_dict by assumption; auto].
    destruct parameters; try discriminate. rewrite handle_create_task_eq. cbv zeta.
    destruct (truthy _); auto. cbn [snd].
    apply store_inv_set; [assumption|discriminate|reflexivity].
  - destruct (is_dict parameters) eqn:Hd;
      [|rewrite handle_update_task_not_dict by assumption; auto].
    destruct parameters; try discriminate. rewrite handle_update_task_eq. cbv zeta.
    destruct (truthy _); auto. destruct (as_hashable _) as [key|]; auto.
    destruct (find ts key) as [[k [|item t]]|] eqn:Hfind; auto. cbn [snd].
    apply find_Some in Hfind as [_ Hget]. destruct (Hinv _ _ Hget) as [Hk Hid].
    apply store_inv_set; auto.
    rewrite update_loop_frame; [assumption|].
    left. unfold update_fields. simpl. intuition discriminate.
  - destruct (is_dict parameters) eqn:Hd;
      [|rewrite handle_delete_task_not_dict by assumption; auto].
    destruct parameters; try discriminate. rewrite handle_delete_task_eq. cbv zeta.
    destruct (truthy _); auto. destruct (as_hashable _) as [key|]; auto.
    destruct (find ts key) as [[k t]|]; auto. cbn [snd].
    now apply store_inv_remove.
Qed.

Lemma reachable_inv ts : reachable ts -> store_inv ts.
Proof.
  induction 1 as [|h parameters e ts _ IH Hin].
  - apply store_inv_seed.
  - now apply store_inv_call.
Qed.

(** The keys of a reachable store are pairwise distinct. *)
Lemma reachable_NoDup ts : reachable ts -> List.NoDup (PyDict.keys ts).
Proof.
  induction 1 as [|h parameters e ts _ IH Hin].
  - unfold tasks. simpl. repeat constructor; simpl; intuition discriminate.
  - simpl in Hin. destruct Hin as [<-|[<-|[<-|[<-|[<-|[]]]]]].
    + assumption.
    + now rewrite handle_get_task_store.
    + destruct (is_dict parameters) eqn:Hd;
        [|now rewrite handle_create_task_not_dict].
      destruct parameters; try discriminate. rewrite handle_create_task_eq. cbv zeta.
      destruct (truthy _); auto. cbn [snd]. now apply PyDictFacts.NoDup_keys_set.
    + destruct (is_dict parameters) eqn:Hd;
        [|now rewrite handle_update_task_not_dict].
      destruct parameters; try discriminate. rewrite handle_update_task_eq. cbv zeta.
      destruct (truthy _); auto. destruct (as_hashable _) as [key|]; auto.
      destruct (find ts key) as [[k [|item t]]|]; auto. cbn [snd].
      now apply PyDictFacts.NoDup_keys_set.
    + destruct (is_dict parameters) eqn:Hd;
        [|now rewrite handle_delete_task_not_dict].
      destruct parameters; try discriminate. rewrite handle_delete_task_eq. cbv zeta.
      destruct (truthy _); auto. destruct (as_hashable _) as [key|]; auto.
      destruct (find ts key) as [[k t]|]; auto. cbn [snd].
      now apply PyDictFacts.NoDup_keys_remove.
Qed.

(** ** The handlers *)

(** C1, as the code has it: a create whose parameters hold a truthy title
    returns a task whose status is "pending" and whose id is "task-" followed
    by the first eight characters of the random token, and stores the task
    under that id.  The handler never looks whether the id is taken: the id
    differs from every key of the store before the call exactly when that
    store does not hold it. *)
Theorem C1_create_id_and_status d title e ts :
  PyDict.get d "title" = Some title ->
  truthy title = true ->
  let task_id := "task-" +:+ substring 0 8 (uuid4 e) in
  exists task,
    handle_create_task (VDict d) e ts =
      (Return (VDict [("task", VDict task); ("task_id", VStr task_id)]),
       PyDict.set ts task_id task) /\
    PyDict.get task "id" = Some (VStr task_id) /\
    PyDict.get task "status" = Some (VStr "pending") /\
    ((forall k, In k (PyDict.keys ts) -> k <> task_id) <->
     PyDict.contains ts task_id = false).
Proof.
  intros Htitle Htruthy task_id. rewrite handle_create_task_eq. cbv zeta.
  unfold PyDict.get_default at 1. rewrite Htitle, Htruthy.
  eexists. split; [reflexivity|]. split; [reflexivity|]. split; [reflexivity|].
  symmetry. apply PyDictFacts.contains_keys.
Qed.

(** C2: on a reachable store, an update that names a stored task returns
    without error, keeps the id and created_at of the stored record, and
    leaves alone every field that is not one of title, description, status,
    priority, due_date or that the parameters do not hold; a key of the
    parameters outside these five (and other than task_id) changes neither the
    result nor the store. *)
Theorem C2_update_frame ts task_id t d e :
  reachable ts ->
  PyDict.get ts task_id = Some t ->
  PyDict.get d "task_id" = Some (VStr task_id) ->
  exists t',
    handle_update_task (VDict d) e ts =
      (Return (VDict [("task", VDict t')]), PyDict.set ts task_id t') /\
    PyDict.get (PyDict.set ts task_id t') task_id = Some t' /\
    PyDict.get t' "id" = PyDict.get t "id" /\
    PyDict.get t' "created_at" = PyDict.get t "created_at" /\
    (forall f, ~ In f update_fields \/ PyDict.get d f = None ->
               PyDict.get t' f = PyDict.get t f) /\
    (forall k v, ~ In k update_fields -> k <> "task_id" ->
       handle_update_task (VDict (PyDict.set d k v)) e ts =
       handle_update_task (VDict d) e ts).
Proof.
  intros Hreach Hget Hid.
  destruct (reachable_inv _ Hreach _ _ Hget) as [Hne Hrec].
  assert (Htruthy : truthy (VStr task_id) = true).
  { cbn [truthy]. destruct (String.eqb_spec task_id ""); [congruence|reflexivity]. }
  assert (Hfind : find ts (HStr task_id) = Some (task_id, t))
    by (rewrite find_str, Hget; reflexivity).
  destruct t as [|item t]; [discriminate|].
  exists (fold_left (update_field (VDict d)) update_fields (item :: t)).
  split; [|split; [|split; [|split; [|split]]]].
  - rewrite handle_update_task_eq. cbv zeta. unfold PyDict.get_default.
    rewrite Hid, Htruthy. cbn [as_hashable]. now rewrite Hfind.
  - apply PyDictFacts.get_set_eq.
  - apply update_loop_frame. left. unfold update_fields. simpl. intuition discriminate.
  - apply update_loop_frame. left. unfold update_fields. simpl. intuition discriminate.
  - intros f Hf. now apply update_loop_frame.
  - intros k v Hk Hk'. rewrite !handle_update_task_eq. cbv zeta.
    unfold PyDict.get_default.
    rewrite (PyDictFacts.get_set_ne d k "task_id" v Hk'), Hid, Htruthy.
    cbn [as_hashable]. rewrite Hfind.
    rewrite (update_loop_agree (PyDict.set d k v) d); [reflexivity|].
    intros f Hin. apply PyDictFacts.get_set_ne. intros ->. contradiction.
Qed.

(** C3: a create with a truthy title followed by a get of the returned
    task_id returns exactly the task record that the create returned. *)
Theorem C3_create_then_get d title e e' ts :
  PyDict.get d "title" = Some title ->
  truthy title = true ->
  exists task task_id ts',
    handle_create_task (VDict d) e ts =
      (Return (VDict [("task", VDict task); ("task_id", VStr task_id)]), ts') /\
    handle_get_task (VDict [("task_id", VStr task_id)]) e' ts' =
      (Return (VDict [("task", VDict task)]), ts').
Proof.
  intros Htitle Htruthy. rewrite handle_create_task_eq. cbv zeta.
  unfold PyDict.get_default at 1. rewrite Htitle, Htruthy.
  eexists _, _, _. split; [reflexivity|].
  rewrite handle_get_task_eq. cbv zeta.
  change (PyDict.get_default [("task_id", VStr ?x)] "task_id" VNone) with (VStr x).
  rewrite task_id_nonempty. cbn [as_hashable].
  rewrite find_str, PyDictFacts.get_set_eq. reflexivity.
Qed.

(** C4, as the code has it: for a task_id that is truthy and hashable (a
    non-empty string, say) and not in the store, delete returns the not-found
    payload and leaves the store as it was; after any delete of such a
    task_id, present before or not, a second delete and a get both return that
    not-found payload. *)
Theorem C4_delete_not_found d v key e e1 e2 ts :
  PyDict.get d "task_id" = Some v ->
  truthy v = true ->
  as_hashable v = Some key ->
  let missing := error ("Task with ID " +:+ py_str key +:+ " not found") in
  (find ts key = None ->
   handle_delete_task (VDict d) e ts = (Return missing, ts)) /\
  (let ts1 := snd (handle_delete_task (VDict d) e ts) in
   handle_delete_task (VDict d) e1 ts1 = (Return missing, ts1) /\
   handle_get_task (VDict d) e2 ts1 = (Return missing, ts1)).
Proof.
  intros Hv Htruthy Hkey missing.
  assert (Hdel : forall e0 ts0, find ts0 key = None ->
            handle_delete_task (VDict d) e0 ts0 = (Return missing, ts0)).
  { intros e0 ts0 Hnone. rewrite handle_delete_task_eq. cbv zeta.
    unfold PyDict.get_default. now rewrite Hv, Htruthy, Hkey, Hnone. }
  assert (Hget : forall e0 ts0, find ts0 key = None ->
            handle_get_task (VDict d) e0 ts0 = (Return missing, ts0)).
  { intros e0 ts0 Hnone. rewrite handle_get_task_eq. cbv zeta.
    unfold PyDict.get_default. now rewrite Hv, Htruthy, Hkey, Hnone. }
  split; [apply Hdel|].
  assert (Hgone : find (snd (handle_delete_task (VDict d) e ts)) key = None).
  { destruct (find ts key) as [[k t]|] eqn:Hfind.
    - rewrite handle_delete_task_eq. cbv zeta. unfold PyDict.get_default.
      rewrite Hv, Htruthy, Hkey, Hfind. cbn [snd].
      apply find_Some in Hfind as [-> _].
      now rewrite find_str, PyDictFacts.get_remove_eq.
    - now rewrite Hdel. }
  cbv zeta. split; [now apply Hdel | now apply Hget].
Qed.

(** C8: in the seed store and after any sequence of calls of the five
    handlers, every key of the store maps to a record whose id field is that
    key. *)
Theorem C8_key_is_record_id ts :
  reachable ts ->
  forall k t, PyDict.get ts k = Some t -> PyDict.get t "id" = Some (VStr k).
Proof. intros Hreach k t Hget. now apply (reachable_inv _ Hreach k t). Qed.

#[local] Ltac no_error_key :=
  let H := fresh in intros H; cbv in H; discriminate H.

#[local] Ltac kept := unfold not_found, error; intros _; reflexivity.

(** Unless it returns a result without an "error" key, a handler leaves the
    store as it was. *)
Lemma handler_error_store h parameters e ts :
  In h handlers ->
  match fst (h parameters e ts) with
  | Return (VDict r) =>
      PyDict.contains r "error" = true -> snd (h parameters e ts) = ts
  | _ => snd (h parameters e ts) = ts
  end.
Proof.
  intros Hin. simpl in Hin. destruct Hin as [<-|[<-|[<-|[<-|[<-|[]]]]]].
  - rewrite handle_list_tasks_eq. now intros _.
  - rewrite handle_get_task_store. now destruct (fst _) as [[]|].
  - destruct (is_dict parameters) eqn:Hd;
      [|now rewrite handle_create_task_not_dict].
    destruct parameters; try discriminate. rewrite handle_create_task_eq. cbv zeta.
    destruct (truthy _); cbn [fst snd]; [no_error_key|kept].
  - destruct (is_dict parameters) eqn:Hd;
      [|now rewrite handle_update_task_not_dict].
    destruct parameters; try discriminate. rewrite handle_update_task_eq. cbv zeta.
    destruct (truthy _); [|kept].
    destruct (as_hashable _) as [key|]; [|reflexivity].
    destruct (find ts key) as [[k [|item t]]|]; cbn [fst snd];
      [kept|no_error_key|kept].
  - destruct (is_dict parameters) eqn:Hd;
      [|now rewrite handle_delete_task_not_dict].
    destruct parameters; try discriminate. rewrite handle_delete_task_eq. cbv zeta.
    destruct (truthy _); [|kept].
    destruct (as_hashable _) as [key|]; [|reflexivity].
    destruct (find ts key) as [[k t]|]; cbn [fst snd]; [no_error_key|kept].
Qed.

(** C9: when one of the five handlers returns a result that holds the
    "error" key, the store after the call is the store before it; and list and
    get leave the store as it was on every input. *)
Theorem C9_error_leaves_store h parameters e ts :
  In h handlers ->
  (forall r ts', h parameters e ts = (Return (VDict r), ts') ->
                 PyDict.contains r "error" = true -> ts' = ts) /\
  snd (handle_list_tasks parameters e ts) = ts /\
  snd (handle_get_task parameters e ts) = ts.
Proof.
  intros Hin. split; [|split].
  - intros r ts' Hcall Herr.
    pose proof (handler_error_store h parameters e ts Hin) as Hstore.
    rewrite Hcall in Hstore. cbn [fst snd] in Hstore. auto.
  - reflexivity.
  - apply handle_get_task_store.
Qed.

(** C10: get, update and delete answer a task_id that is in the parameters
    but falsy with the missing-parameter error and leave the store as it was;
    and no reachable store holds a task under such a task_id. *)
Theorem C10_falsy_task_id d v e ts :
  PyDict.get d "task_id" = Some v ->
  truthy v = false ->
  let required := error "task_id parameter is required" in
  handle_get_task (VDict d) e ts = (Return required, ts) /\
  handle_update_task (VDict d) e ts = (Return required, ts) /\
  handle_delete_task (VDict d) e ts = (Return required, ts) /\
  (reachable ts -> forall key, as_hashable v = Some key -> find ts key = None).
Proof.
  intros Hv Hfalsy required.
  rewrite handle_get_task_eq, handle_update_task_eq, handle_delete_task_eq.
  cbv zeta. unfold PyDict.get_default. rewrite Hv, Hfalsy.
  repeat split.
  intros Hreach key Hkey. destruct (find ts key) as [[k t]|] eqn:Hfind; auto.
  apply find_Some in Hfind as [-> Hget].
  destruct (reachable_inv _ Hreach _ _ Hget) as [Hne _].
  destruct v; try discriminate. injection Hkey as ->. cbn [truthy] in Hfalsy.
  destruct (String.eqb_spec k ""); [congruence|discriminate].
Qed.

(** ** Authentication and the route *)

Context {JL : JSONLoads}.

Lemma compare_digest_ascii a b :
  is_ascii a = true -> is_ascii b = true ->
  compare_digest a b = Return (String.eqb a b).
Proof. intros Ha Hb. unfold compare_digest. now rewrite Ha, Hb. Qed.

Lemma verify_credentials_ascii u p :
  is_ascii u = true -> is_ascii p = true ->
  verify_credentials {| username := u; password := p |} =
    if String.eqb u USERNAME && String.eqb p PASSWORD
    then Return {| username := u; password := p |}
    else Raise (HTTPException 401 "Invalid credentials" [("WWW-Authenticate", "Basic")]).
Proof.
  intros Hu Hp. unfold verify_credentials. cbn [username password].
  rewrite (compare_digest_ascii u USERNAME Hu eq_refl).
  rewrite (compare_digest_ascii p PASSWORD Hp eq_refl).
  cbn [outcome_bind]. now destruct (_ && _).
Qed.

Lemma handle_mcp_request_with_eq hm function_name body e ts :
  handle_mcp_request_with hm function_name body e ts =
    match json_loads body with
    | Raise x => (Return (caught x), ts)
    | Return parameters =>
        match PyDict.get hm function_name with
        | None =>
            (Return (error ("Function " +:+ function_name +:+ " not supported")), ts)
        | Some h =>
            match h parameters e ts with
            | (Return result, ts') => (Return result, ts')
            | (Raise x, ts') => (Return (caught x), ts')
            end
        end
    end.
Proof.
  unfold handle_mcp_request_with, try_except, lift, mbind, M_bind, mret, M_ret.
  destruct (json_loads body) as [parameters|x]; [|reflexivity].
  destruct (PyDict.get hm function_name) as [h|]; [|reflexivity].
  now destruct (h parameters e ts) as [[result|x] ts'].
Qed.

(** The route always returns: no exception leaves it. *)
Lemma handle_mcp_request_with_returns hm function_name body e ts :
  exists result ts',
    handle_mcp_request_with hm function_name body e ts = (Return result, ts').
Proof.
  rewrite handle_mcp_request_with_eq.
  destruct (json_loads body) as [parameters|x]; [|eauto].
  destruct (PyDict.get hm function_name) as [h|]; [|eauto].
  destruct (h parameters e ts) as [[result|x] ts']; eauto.
Qed.

(** Credentials that [verify_credentials] lets through are ASCII, so they
    pass [HTTPBasic] as well. *)
Lemma verified_is_ascii credentials c :
  verify_credentials credentials = Return c ->
  http_basic credentials = Return credentials.
Proof.
  unfold verify_credentials, compare_digest, http_basic.
  destruct (is_ascii (username credentials)); [|discriminate].
  destruct (is_ascii (password credentials)); [reflexivity|].
  cbn [andb outcome_bind]. discriminate.
Qed.

Lemma post_mcp_with_authorized hm credentials function_name body e ts :
  verify_credentials credentials = Return credentials ->
  post_mcp_with hm credentials function_name body e ts =
    let (o, ts') := handle_mcp_request_with hm function_name body e ts in
    (render o, ts').
Proof.
  intros Hok. unfold post_mcp_with.
  rewrite (verified_is_ascii _ _ Hok). cbn [outcome_bind]. now rewrite Hok.
Qed.

Lemma caught_is_error x : exists msg, caught x = error msg.
Proof. destruct x; simpl; eauto. Qed.

Lemma handler_map_handlers function_name h :
  PyDict.get handler_map function_name = Some h -> In h handlers.
Proof.
  unfold handlers, handler_map. cbn [PyDict.get PyDict.values map snd].
  repeat (destruct (String.eqb _ function_name); [intros [= <-]; simpl; auto 10|]).
  discriminate.
Qed.

(** An error payload can always be written out. *)
Lemma render_error msg :
  render (Return (error msg)) =
    {| status_code := 200; headers := []; content := error msg |}.
Proof. reflexivity. Qed.

Lemma post_mcp_with_payload hm credentials function_name body e ts msg ts' :
  verify_credentials credentials = Return credentials ->
  handle_mcp_request_with hm function_name body e ts = (Return (error msg), ts') ->
  post_mcp_with hm credentials function_name body e ts =
    ({| status_code := 200; headers := []; content := error msg |}, ts').
Proof.
  intros Hok Hrun. rewrite post_mcp_with_authorized by assumption.
  now rewrite Hrun, render_error.
Qed.

Lemma required_parameter_cases function_name name :
  required_parameter function_name = Some name ->
  (function_name = "create_task" /\ name = "title") \/
  (name = "task_id" /\
   (function_name = "get_task" \/ function_name = "update_task" \/
    function_name = "delete_task")).
Proof.
  unfold required_parameter.
  destruct (String.eqb_spec function_name "create_task"); [intros [= <-]; auto|].
  destruct (String.eqb_spec function_name "get_task"); [intros [= <-]; auto|].
  destruct (String.eqb_spec function_name "update_task"); [intros [= <-]; auto|].
  destruct (String.eqb_spec function_name "delete_task"); [intros [= <-]; auto 6|].
  discriminate.
Qed.

Lemma unsupported_lookup (hm : list (string * handler)) function_name :
  ~ In function_name (PyDict.keys hm) -> PyDict.get hm function_name = None.
Proof.
  intros Hnotin. destruct (PyDict.get hm function_name) as [h|] eqn:E; auto.
  exfalso. apply Hnotin. eapply PyDictFacts.get_In_keys; eauto.
Qed.


(** C6, as the code has it: for a request that has passed authentication
    the route function never raises, and the answer is what the framework
    makes of the payload it returns; when the request meets a malformed body,
    an unsupported function name, a missing required parameter, a task that
    is not found, or an exception raised by [json.loads] or by a handler, the
    answer is status 200 with a body of the shape {"error": <message>} and
    the store is as before.  (A payload that cannot be written out as JSON is
    answered with status 500: that failure comes after the route has
    returned.) *)
Theorem C6_faults_are_payloads credentials function_name body e ts :
  verify_credentials credentials = Return credentials ->
  (exists result ts',
     handle_mcp_request function_name body e ts = (Return result, ts') /\
     post_mcp credentials function_name body e ts = (render (Return result), ts')) /\
  (fault function_name body e ts ->
   exists msg,
     post_mcp credentials function_name body e ts =
       ({| status_code := 200; headers := []; content := error msg |}, ts)).
Proof.
  intros Hok. unfold post_mcp, handle_mcp_request. split.
  - destruct (handle_mcp_request_with_returns handler_map function_name body e ts)
      as (result & ts' & Hrun).
    exists result, ts'. split; [assumption|].
    rewrite post_mcp_with_authorized by assumption. now rewrite Hrun.
  - intros Hfault.
    enough (exists msg, handle_mcp_request_with handler_map function_name body e ts
                        = (Return (error msg), ts)) as [msg Hrun]
      by (exists msg; now apply post_mcp_with_payload).
    rewrite handle_mcp_request_with_eq.
    destruct Hfault as [msg Hloads | parameters Hloads Hnone
                       | d name Hloads Hreq Hfalsy
                       | d key Hloads Hreq Htruthy Hkey Hfind
                       | x Hloads | parameters h x Hloads Hh Hraise];
      rewrite Hloads.
    + eauto.
    + apply PyDictFacts.contains_false in Hnone. rewrite Hnone. eauto.
    + destruct (required_parameter_cases _ _ Hreq)
        as [[-> ->] | [-> [-> | [-> | ->]]]].
      * change (PyDict.get handler_map "create_task") with (Some handle_create_task). cbv beta iota.
        rewrite handle_create_task_eq. cbv zeta. rewrite Hfalsy. eauto.
      * change (PyDict.get handler_map "get_task") with (Some handle_get_task). cbv beta iota.
        rewrite handle_get_task_eq. cbv zeta. rewrite Hfalsy. eauto.
      * change (PyDict.get handler_map "update_task") with (Some handle_update_task). cbv beta iota.
        rewrite handle_update_task_eq. cbv zeta. rewrite Hfalsy. eauto.
      * change (PyDict.get handler_map "delete_task") with (Some handle_delete_task). cbv beta iota.
        rewrite handle_delete_task_eq. cbv zeta. rewrite Hfalsy. eauto.
    + destruct (required_parameter_cases _ _ Hreq)
        as [[_ Hname] | [_ [-> | [-> | ->]]]]; [discriminate Hname|..].
      * change (PyDict.get handler_map "get_task") with (Some handle_get_task). cbv beta iota.
        rewrite handle_get_task_eq. cbv zeta. rewrite Htruthy, Hkey, Hfind.
        unfold not_found. eauto.
      * change (PyDict.get handler_map "update_task") with (Some handle_update_task). cbv beta iota.
        rewrite handle_update_task_eq. cbv zeta. rewrite Htruthy, Hkey, Hfind.
        unfold not_found. eauto.
      * change (PyDict.get handler_map "delete_task") with (Some handle_delete_task). cbv beta iota.
        rewrite handle_delete_task_eq. cbv zeta. rewrite Htruthy, Hkey, Hfind.
        unfold not_found. eauto.
    + destruct (caught_is_error x) as [msg ->]. eauto.
    + rewrite Hh.
      pose proof (handler_error_store h parameters e ts
                    (handler_map_handlers _ _ Hh)) as Hstore.
      destruct (h parameters e ts) as [o ts']. cbn [fst snd] in *. subst o.
      rewrite Hstore. destruct (caught_is_error x) as [msg ->]. eauto.
Qed.

(** C7: for a function name outside the five of the handler map, an
    authenticated request whose body parses is answered with the payload
    {"error": "Function <function_name> not supported"} and the store is as
    before; the answer is the same under any handlers put behind the five
    names, so none of them is invoked. *)
Theorem C7_unsupported_function credentials function_name body parameters e ts :
  verify_credentials credentials = Return credentials ->
  ~ In function_name
      ["list_tasks"; "get_task"; "create_task"; "update_task"; "delete_task"] ->
  json_loads body = Return parameters ->
  let answer :=
    {| status_code := 200; headers := [];
       content := error ("Function " +:+ function_name +:+ " not supported") |} in
  post_mcp credentials function_name body e ts = (answer, ts) /\
  (forall hm : list (string * handler),
     PyDict.keys hm = PyDict.keys handler_map ->
     post_mcp_with hm credentials function_name body e ts = (answer, ts)).
Proof.
  intros Hok Hnotin Hloads answer.
  assert (Hany : forall hm : list (string * handler),
            PyDict.keys hm = PyDict.keys handler_map ->
            post_mcp_with hm credentials function_name body e ts = (answer, ts)).
  { intros hm Hkeys. apply post_mcp_with_payload; [assumption|].
    rewrite handle_mcp_request_with_eq, Hloads, unsupported_lookup; [reflexivity|].
    now rewrite Hkeys. }
  split; [now apply Hany|exact Hany].
Qed.

End Properties.

(** * Further properties of the handlers and the routes *)

Section Further.
Context {PF : PyFloat}.

(** ** Create *)

(** A create with a truthy title touches the store at the new id only: every
    other key keeps its record; a new id goes last in the store, and an id the
    store already holds keeps its place (its record is replaced). *)
Theorem create_placement d e ts :
  truthy (PyDict.get_default d "title" VNone) = true ->
  let task_id := "task-" +:+ substring 0 8 (uuid4 e) in
  let ts' := snd (handle_create_task (VDict d) e ts) in
  (forall k, k <> task_id -> PyDict.get ts' k = PyDict.get ts k) /\
  (PyDict.contains ts task_id = false ->
   PyDict.keys ts' = (PyDict.keys ts ++ [task_id])%list) /\
  (PyDict.contains ts task_id = true -> PyDict.keys ts' = PyDict.keys ts).
Proof.
  intros Htitle task_id ts'. subst ts'.
  rewrite handle_create_task_eq. cbv zeta. rewrite Htitle. cbn [snd].
  fold task_id. split; [|split].
  - intros k Hk. apply PyDictFacts.get_set_ne. congruence.
  - intros Hfresh. apply PyDictFacts.keys_set_absent.
    now apply PyDictFacts.contains_false.
  - intros Htaken. apply PyDictFacts.contains_true in Htaken as [t Ht].
    eapply PyDictFacts.keys_set_present; eauto.
Qed.

(** The create handler reads title, description, priority and due_date and
    nothing else: two parameter bags that agree on these four give the same
    result and the same store.  A status, id or created_at sent along is
    ignored. *)
Theorem create_reads_four_parameters d1 d2 e ts :
  (forall f, In f create_fields -> PyDict.get d1 f = PyDict.get d2 f) ->
  handle_create_task (VDict d1) e ts = handle_create_task (VDict d2) e ts.
Proof.
  intros Hagree. rewrite !handle_create_task_eq. cbv zeta.
  unfold PyDict.get_default.
  rewrite (Hagree "title"), (Hagree "description"), (Hagree "priority"),
    (Hagree "due_date"); unfold create_fields; simpl; auto 6.
Qed.

(** A create whose title is absent or falsy (empty string, zero, null, empty
    list) returns the error payload and stores nothing. *)
Theorem create_requires_title d e ts :
  PyDict.get d "title" = None \/
  (exists v, PyDict.get d "title" = Some v /\ truthy v = false) ->
  handle_create_task (VDict d) e ts =
    (Return (error "title parameter is required"), ts).
Proof.
  intros Htitle. rewrite handle_create_task_eq. cbv zeta.
  unfold PyDict.get_default.
  destruct Htitle as [->|(v & -> & Hv)]; [reflexivity|now rewrite Hv].
Qed.

(** Creating a task under an id the store does not hold and deleting it again
    by the returned id gives back the store as it was, and the delete returns
    the very task the create returned. *)
Theorem create_then_delete d e e' ts :
  truthy (PyDict.get_default d "title" VNone) = true ->
  PyDict.contains ts ("task-" +:+ substring 0 8 (uuid4 e)) = false ->
  exists task task_id ts',
    handle_create_task (VDict d) e ts =
      (Return (VDict [("task", VDict task); ("task_id", VStr task_id)]), ts') /\
    handle_delete_task (VDict [("task_id", VStr task_id)]) e' ts' =
      (Return (VDict [("success", VBool true); ("deleted_task", VDict task)]), ts).
Proof.
  intros Htitle Hfresh. rewrite handle_create_task_eq. cbv zeta. rewrite Htitle.
  eexists _, _, _. split; [reflexivity|].
  rewrite handle_delete_task_eq. cbv zeta.
  change (PyDict.get_default [("task_id", VStr ?x)] "task_id" VNone) with (VStr x).
  rewrite task_id_nonempty. cbn [as_hashable].
  rewrite find_str, PyDictFacts.get_set_eq. cbn [option_map].
  rewrite PyDictFacts.remove_set_absent; [reflexivity|].
  now apply PyDictFacts.contains_false.
Qed.

(** After a create under a new id, the list handler returns the records it
    returned before, in the same order, followed by the created task. *)
Theorem create_then_list d e e' parameters ts :
  truthy (PyDict.get_default d "title" VNone) = true ->
  PyDict.contains ts ("task-" +:+ substring 0 8 (uuid4 e)) = false ->
  exists task task_id ts',
    handle_create_task (VDict d) e ts =
      (Return (VDict [("task", VDict task); ("task_id", VStr task_id)]), ts') /\
    fst (handle_list_tasks parameters e' ts') =
      Return (VDict [("tasks",
                VList (map VDict (PyDict.values ts ++ [task])%list))]).
Proof.
  intros Htitle Hfresh. rewrite handle_create_task_eq. cbv zeta. rewrite Htitle.
  eexists _, _, _. split; [reflexivity|].
  rewrite handle_list_tasks_eq. cbn [fst].
  rewrite PyDictFacts.values_set_absent; [reflexivity|].
  now apply PyDictFacts.contains_false.
Qed.

(** ** Get, update and delete on a stored task *)

Lemma stored_task_found ts k t :
  reachable ts -> PyDict.get ts k = Some t ->
  truthy (VStr k) = true /\ find ts (HStr k) = Some (k, t) /\ t <> [].
Proof.
  intros Hreach Hget. destruct (reachable_inv _ Hreach _ _ Hget) as [Hne Hid].
  split; [|split].
  - cbn [truthy]. destruct (String.eqb_spec k ""); [congruence|reflexivity].
  - now rewrite find_str, Hget.
  - intros ->. discriminate.
Qed.

(** On a reachable store, a get that names a stored task returns the stored
    record and leaves the store as it was. *)
Theorem get_returns_stored ts k t d e :
  reachable ts ->
  PyDict.get ts k = Some t ->
  PyDict.get d "task_id" = Some (VStr k) ->
  handle_get_task (VDict d) e ts = (Return (VDict [("task", VDict t)]), ts).
Proof.
  intros Hreach Hget Hid.
  destruct (stored_task_found _ _ _ Hreach Hget) as (Htruthy & Hfind & Hne).
  rewrite handle_get_task_eq. cbv zeta. unfold PyDict.get_default.
  rewrite Hid, Htruthy. cbn [as_hashable]. rewrite Hfind.
  now destruct t.
Qed.

(** The loop writes every field it runs over that the parameters hold. *)
Lemma update_loop_written d fields t f v :
  In f fields -> PyDict.get d f = Some v ->
  PyDict.get (fold_left (update_field (VDict d)) fields t) f = Some v.
Proof.
  revert t. induction fields as [|field fields IH]; intros t Hin Hv;
    cbn [fold_left]; [destruct Hin|].
  destruct (in_dec string_dec f fields) as [Hlater|Hlast].
  - now apply IH.
  - destruct Hin as [->|Hin]; [|contradiction].
    rewrite update_loop_frame by now left.
    cbn [update_field]. rewrite Hv. apply PyDictFacts.get_set_eq.
Qed.

(** A record that already holds what the loop would write is left as it is. *)
Lemma update_loop_fixed d fields t :
  (forall f v, In f fields -> PyDict.get d f = Some v -> PyDict.get t f = Some v) ->
  fold_left (update_field (VDict d)) fields t = t.
Proof.
  induction fields as [|field fields IH]; intros Hheld; cbn [fold_left]; auto.
  assert (Hstep : update_field (VDict d) t field = t).
  { cbn [update_field]. destruct (PyDict.get d field) as [v|] eqn:Hv; auto.
    apply PyDictFacts.set_same. apply Hheld; [now left|assumption]. }
  rewrite Hstep. apply IH. intros f v Hin. apply Hheld. now right.
Qed.

Lemma update_loop_keys d fields t :
  (forall f, In f fields -> In f (PyDict.keys t)) ->
  PyDict.keys (fold_left (update_field (VDict d)) fields t) = PyDict.keys t.
Proof.
  revert t. induction fields as [|field fields IH]; intros t Hin;
    cbn [fold_left]; auto.
  assert (Hstep : PyDict.keys (update_field (VDict d) t field) = PyDict.keys t).
  { cbn [update_field]. destruct (PyDict.get d field) as [v|]; auto.
    destruct (PyDictFacts.In_keys_get t field) as [v' Hv']; [apply Hin; now left|].
    eapply PyDictFacts.keys_set_present; eauto. }
  rewrite IH; [assumption|].
  intros f Hf. rewrite Hstep. apply Hin. now right.
Qed.

Lemma update_stored_eq ts k t d e :
  reachable ts ->
  PyDict.get ts k = Some t ->
  PyDict.get d "task_id" = Some (VStr k) ->
  handle_update_task (VDict d) e ts =
    (Return (VDict [("task", VDict (fold_left (update_field (VDict d)) update_fields t))]),
     PyDict.set ts k (fold_left (update_field (VDict d)) update_fields t)).
Proof.
  intros Hreach Hget Hid.
  destruct (stored_task_found _ _ _ Hreach Hget) as (Htruthy & Hfind & Hne).
  rewrite handle_update_task_eq. cbv zeta. unfold PyDict.get_default.
  rewrite Hid, Htruthy. cbn [as_hashable]. rewrite Hfind.
  destruct t as [|item t]; [congruence|reflexivity].
Qed.

(** On a reachable store, an update that names a stored task sets each of
    title, description, status, priority and due_date that the parameters hold
    to the value they hold for it (a null included), and keeps the others. *)
Theorem update_writes_fields ts k t d e :
  reachable ts ->
  PyDict.get ts k = Some t ->
  PyDict.get d "task_id" = Some (VStr k) ->
  exists t',
    PyDict.get (snd (handle_update_task (VDict d) e ts)) k = Some t' /\
    forall f, In f update_fields ->
      PyDict.get t' f =
        match PyDict.get d f with Some v => Some v | None => PyDict.get t f end.
Proof.
  intros Hreach Hget Hid.
  rewrite (update_stored_eq _ _ _ _ _ Hreach Hget Hid). cbn [snd].
  eexists. split; [apply PyDictFacts.get_set_eq|].
  intros f Hf. destruct (PyDict.get d f) as [v|] eqn:Hv.
  - now apply update_loop_written.
  - apply update_loop_frame. now right.
Qed.

(** On a reachable store, running the same update of a stored task a second
    time returns what the first run returned and changes nothing more. *)
Theorem update_idempotent ts k t d e e' :
  reachable ts ->
  PyDict.get ts k = Some t ->
  PyDict.get d "task_id" = Some (VStr k) ->
  handle_update_task (VDict d) e'
    (snd (handle_update_task (VDict d) e ts)) =
  handle_update_task (VDict d) e ts.
Proof.
  intros Hreach Hget Hid.
  assert (Hreach' : reachable (snd (handle_update_task (VDict d) e ts))).
  { apply reachable_call; [assumption|simpl; auto 6]. }
  revert Hreach'. rewrite (update_stored_eq _ _ _ _ e Hreach Hget Hid). cbn [snd].
  set (t' := fold_left (update_field (VDict d)) update_fields t).
  intros Hreach'.
  rewrite (update_stored_eq _ k t' _ e' Hreach' (PyDictFacts.get_set_eq _ _ _) Hid).
  assert (Hfixed : fold_left (update_field (VDict d)) update_fields t' = t').
  { apply update_loop_fixed. intros f v Hin Hv. now apply update_loop_written. }
  now rewrite Hfixed, PyDictFacts.set_set.
Qed.

(** On a reachable store, a get right after an update of a stored task
    returns the record the update returned. *)
Theorem update_then_get ts k t d e e' :
  reachable ts ->
  PyDict.get ts k = Some t ->
  PyDict.get d "task_id" = Some (VStr k) ->
  exists t' ts',
    handle_update_task (VDict d) e ts = (Return (VDict [("task", VDict t')]), ts') /\
    handle_get_task (VDict [("task_id", VStr k)]) e' ts' =
      (Return (VDict [("task", VDict t')]), ts').
Proof.
  intros Hreach Hget Hid.
  assert (Hreach' : reachable (snd (handle_update_task (VDict d) e ts))).
  { apply reachable_call; [assumption|simpl; auto 6]. }
  revert Hreach'. rewrite (update_stored_eq _ _ _ _ e Hreach Hget Hid). cbn [snd].
  intros Hreach'. eexists _, _. split; [reflexivity|].
  apply (get_returns_stored _ k); [assumption| |reflexivity].
  apply PyDictFacts.get_set_eq.
Qed.

(** Whatever the parameters, the list, get and update handlers neither add
    nor remove a key of the store, nor move one. *)
Theorem keys_kept_by_list_get_update parameters e ts :
  PyDict.keys (snd (handle_list_tasks parameters e ts)) = PyDict.keys ts /\
  PyDict.keys (snd (handle_get_task parameters e ts)) = PyDict.keys ts /\
  PyDict.keys (snd (handle_update_task parameters e ts)) = PyDict.keys ts.
Proof.
  split; [reflexivity|]. split; [now rewrite handle_get_task_store|].
  destruct (is_dict parameters) eqn:Hd;
    [|now rewrite handle_update_task_not_dict].
  destruct parameters; try discriminate. rewrite handle_update_task_eq. cbv zeta.
  destruct (truthy _); auto. destruct (as_hashable _) as [key|]; auto.
  destruct (find ts key) as [[k [|item t]]|] eqn:Hfind; auto. cbn [snd].
  apply find_Some in Hfind as [_ Hget].
  eapply PyDictFacts.keys_set_present; eauto.
Qed.

(** An update leaves alone every record but the one its task_id names. *)
Theorem update_touches_one_record d e ts k :
  PyDict.get_default d "task_id" VNone <> VStr k ->
  PyDict.get (snd (handle_update_task (VDict d) e ts)) k = PyDict.get ts k.
Proof.
  intros Hother. rewrite handle_update_task_eq. cbv zeta.
  destruct (truthy _); auto.
  destruct (as_hashable _) as [key|] eqn:Hkey; auto.
  destruct (find ts key) as [[k' [|item t]]|] eqn:Hfind; auto. cbn [snd].
  apply find_Some in Hfind as [-> _].
  apply PyDictFacts.get_set_ne. intros ->. apply Hother.
  destruct (PyDict.get_default d "task_id" VNone); try discriminate.
  now injection Hkey as ->.
Qed.

(** A delete that names a stored task returns that record with the success
    flag; afterwards the key is gone, every other key keeps its record, and
    the remaining keys keep their order. *)
Theorem delete_removes_one_record ts k t d e :
  k <> "" ->
  PyDict.get ts k = Some t ->
  PyDict.get d "task_id" = Some (VStr k) ->
  exists ts',
    handle_delete_task (VDict d) e ts =
      (Return (VDict [("success", VBool true); ("deleted_task", VDict t)]), ts') /\
    PyDict.get ts' k = None /\
    (forall k', k' <> k -> PyDict.get ts' k' = PyDict.get ts k') /\
    PyDict.keys ts' =
      List.filter (fun k' => negb (String.eqb k' k)) (PyDict.keys ts).
Proof.
  intros Hne Hget Hid. rewrite handle_delete_task_eq. cbv zeta.
  unfold PyDict.get_default. rewrite Hid.
  assert (Htruthy : truthy (VStr k) = true).
  { cbn [truthy]. destruct (String.eqb_spec k ""); [congruence|reflexivity]. }
  rewrite Htruthy. cbn [as_hashable]. rewrite find_str, Hget. cbn [option_map].
  eexists. split; [reflexivity|]. split; [apply PyDictFacts.get_remove_eq|].
  split; [|apply PyDictFacts.keys_remove].
  intros k' Hk'. apply PyDictFacts.get_remove_ne. congruence.
Qed.

(** Get and delete read task_id and nothing else, and update reads task_id
    and the five fields it may write: on any store, two parameter bags that
    agree on these give the same result and the same store. *)
Theorem handlers_read_only_their_parameters d1 d2 e ts :
  PyDict.get d1 "task_id" = PyDict.get d2 "task_id" ->
  handle_get_task (VDict d1) e ts = handle_get_task (VDict d2) e ts /\
  handle_delete_task (VDict d1) e ts = handle_delete_task (VDict d2) e ts /\
  ((forall f, In f update_fields -> PyDict.get d1 f = PyDict.get d2 f) ->
   handle_update_task (VDict d1) e ts = handle_update_task (VDict d2) e ts).
Proof.
  intros Hid.
  rewrite !handle_get_task_eq, !handle_delete_task_eq, !handle_update_task_eq.
  cbv zeta. unfold PyDict.get_default. rewrite Hid.
  split; [reflexivity|]. split; [reflexivity|].
  intros Hagree.
  destruct (truthy _); [|reflexivity].
  destruct (as_hashable _) as [key|]; [|reflexivity].
  destruct (find ts key) as [[k [|item t]]|]; try reflexivity.
  now rewrite (update_loop_agree d1 d2).
Qed.

(** ** The shape of reachable stores *)

Lemma task_prefix u : String.prefix "task-" ("task-" +:+ u) = true.
Proof. apply prefix_correct. simpl. now destruct u. Qed.

Lemma store_schema_call h parameters e ts :
  In h handlers -> store_schema ts -> store_schema (snd (h parameters e ts)).
Proof.
  intros Hin Hsch.
  simpl in Hin. destruct Hin as [<-|[<-|[<-|[<-|[<-|[]]]]]].
  - assumption.
  - now rewrite handle_get_task_store.
  - destruct (is_dict parameters) eqn:Hd;
      [|now rewrite handle_create_task_not_dict].
    destruct parameters; try discriminate. rewrite handle_create_task_eq. cbv zeta.
    destruct (truthy _); auto. cbn [snd]. intros k t.
    destruct (String.eqb_spec ("task-" +:+ substring 0 8 (uuid4 e)) k) as [<-|Hne].
    + rewrite PyDictFacts.get_set_eq. intros [= <-].
      split; [apply task_prefix|reflexivity].
    + rewrite PyDictFacts.get_set_ne by assumption. apply Hsch.
  - destruct (is_dict parameters) eqn:Hd;
      [|now rewrite handle_update_task_not_dict].
    destruct parameters; try discriminate. rewrite handle_update_task_eq. cbv zeta.
    destruct (truthy _); auto. destruct (as_hashable _) as [key|]; auto.
    destruct (find ts key) as [[k [|item t]]|] eqn:Hfind; auto. cbn [snd].
    apply find_Some in Hfind as [_ Hget]. destruct (Hsch _ _ Hget) as [Hpre Hkeys].
    intros k' t'. destruct (String.eqb_spec k k') as [<-|Hne].
    + rewrite PyDictFacts.get_set_eq. intros Heq.
      replace t' with (fold_left (update_field (VDict d)) update_fields (item :: t))
        by congruence.
      split; [assumption|].
      rewrite update_loop_keys; [assumption|].
      intros f Hf. rewrite Hkeys. unfold update_fields in Hf. unfold task_fields.
      simpl in *. intuition.
    + rewrite PyDictFacts.get_set_ne by assumption. apply Hsch.
  - destruct (is_dict parameters) eqn:Hd;
      [|now rewrite handle_delete_task_not_dict].
    destruct parameters; try discriminate. rewrite handle_delete_task_eq. cbv zeta.
    destruct (truthy _); auto. destruct (as_hashable _) as [key|]; auto.
    destruct (find ts key) as [[k t]|]; auto. cbn [snd]. intros k' t'.
    destruct (String.eqb_spec k k') as [<-|Hne].
    + now rewrite PyDictFacts.get_remove_eq.
    + rewrite PyDictFacts.get_remove_ne by assumption. apply Hsch.
Qed.

(** In the seed store and after any sequence of calls of the handlers, every
    key of the store starts with "task-" and every record has exactly the
    fields id, title, description, status, priority, created_at, due_date, in
    this order. *)
Theorem reachable_schema ts :
  reachable ts ->
  forall k t, PyDict.get ts k = Some t ->
    String.prefix "task-" k = true /\ PyDict.keys t = task_fields.
Proof.
  induction 1 as [|h parameters e ts _ IH Hin].
  - intros k t. unfold tasks. cbn [PyDict.get].
    destruct (String.eqb_spec "task-001" k) as [<-|_].
    + intros [= <-]. split; [exact (task_prefix "001")|reflexivity].
    + destruct (String.eqb_spec "task-002" k) as [<-|_]; [|discriminate].
      intros [= <-]. split; [exact (task_prefix "002")|reflexivity].
  - now apply store_schema_call.
Qed.

Lemma ids_of_items (ts : store) :
  (forall k t, In (k, t) ts -> PyDict.get t "id" = Some (VStr k)) ->
  map (fun t => PyDict.get t "id") (PyDict.values ts) =
  map (fun k => Some (VStr k)) (PyDict.keys ts).
Proof.
  induction ts as [|[k t] ts IH]; intros Hid; simpl; auto.
  rewrite (Hid k t) by now left.
  f_equal. apply IH. intros k' t' Hin. apply Hid. now right.
Qed.

(** On a reachable store, the list handler returns one record per key of the
    store, in the order of the keys, and the id of each record is its key;
    this holds for any parameters, a dictionary or not. *)
Theorem list_returns_each_task_once parameters e ts :
  reachable ts ->
  exists records,
    handle_list_tasks parameters e ts =
      (Return (VDict [("tasks", VList (map VDict records))]), ts) /\
    map (fun t => PyDict.get t "id") records =
      map (fun k => Some (VStr k)) (PyDict.keys ts) /\
    List.NoDup (PyDict.keys ts).
Proof.
  intros Hreach. exists (PyDict.values ts). split; [reflexivity|].
  split; [|now apply reachable_NoDup].
  apply ids_of_items. intros k t Hin.
  apply (reachable_inv _ Hreach k t).
  apply PyDictFacts.In_get; [now apply reachable_NoDup|assumption].
Qed.

(** ** Authentication and the routes *)

Context {JL : JSONLoads}.

(** No credentials but the configured pair pass: for any other pair
    [verify_credentials] does not return, and a request that carries it,
    ASCII or not, is answered with status 401 and the header
    WWW-Authenticate: Basic, the store being as before whatever the handlers
    are.  (A pair that is not ASCII is turned away by [HTTPBasic] before
    [verify_credentials] is called.) *)
Theorem only_configured_credentials_pass hm credentials function_name body e ts :
  ~ (username credentials = USERNAME /\ password credentials = PASSWORD) ->
  (forall c, verify_credentials credentials <> Return c) /\
  exists detail,
    post_mcp_with hm credentials function_name body e ts =
      ({| status_code := 401;
          headers := [("WWW-Authenticate", "Basic")];
          content := VDict [("detail", VStr detail)] |}, ts).
Proof.
  intros Hother. destruct credentials as [u p]. cbn [username password] in Hother.
  destruct (is_ascii u && is_ascii p) eqn:Hascii.
  - apply andb_true_iff in Hascii as [Hu Hp].
    pose proof (verify_credentials_ascii u p Hu Hp) as Hverify.
    destruct (String.eqb_spec u USERNAME) as [Hu'|Hu'];
      destruct (String.eqb_spec p PASSWORD) as [Hp'|Hp'];
      cbn [andb] in Hverify; try tauto;
      (split; [intros c; rewrite Hverify; discriminate|];
       eexists; unfold post_mcp_with, http_basic; cbn [username password];
       rewrite Hu, Hp; cbn [andb outcome_bind]; rewrite Hverify; reflexivity).
  - split.
    + intros c Hc. apply verified_is_ascii in Hc. unfold http_basic in Hc.
      cbn [username password] in Hc. rewrite Hascii in Hc. discriminate.
    + eexists. unfold post_mcp_with, http_basic. cbn [username password].
      rewrite Hascii. reflexivity.
Qed.

Lemma handler_never_says_unsupported h parameters e ts function_name :
  In h handlers ->
  match h parameters e ts with
  | (Return result, _) =>
      result <> error ("Function " +:+ function_name +:+ " not supported")
  | (Raise x, _) =>
      caught x <> error ("Function " +:+ function_name +:+ " not supported")
  end.
Proof.
  intros Hin. simpl in Hin. destruct Hin as [<-|[<-|[<-|[<-|[<-|[]]]]]].
  - rewrite handle_list_tasks_eq. discriminate.
  - destruct (is_dict parameters) eqn:Hd;
      [|rewrite handle_get_task_not_dict by assumption; discriminate].
    destruct parameters; try discriminate. rewrite handle_get_task_eq. cbv zeta.
    destruct (truthy _); [|discriminate].
    destruct (as_hashable _) as [key|]; [|discriminate].
    destruct (find ts key) as [[k [|item t]]|]; discriminate.
  - destruct (is_dict parameters) eqn:Hd;
      [|rewrite handle_create_task_not_dict by assumption; discriminate].
    destruct parameters; try discriminate. rewrite handle_create_task_eq. cbv zeta.
    destruct (truthy _); discriminate.
  - destruct (is_dict parameters) eqn:Hd;
      [|rewrite handle_update_task_not_dict by assumption; discriminate].
    destruct parameters; try discriminate. rewrite handle_update_task_eq. cbv zeta.
    destruct (truthy _); [|discriminate].
    destruct (as_hashable _) as [key|]; [|discriminate].
    destruct (find ts key) as [[k [|item t]]|]; discriminate.
  - destruct (is_dict parameters) eqn:Hd;
      [|rewrite handle_delete_task_not_dict by assumption; discriminate].
    destruct parameters; try discriminate. rewrite handle_delete_task_eq. cbv zeta.
    destruct (truthy _); [|discriminate].
    destruct (as_hashable _) as [key|]; [|discriminate].
    destruct (find ts key) as [[k t]|]; discriminate.
Qed.

(** The function names that [GET /] advertises are exactly those the route
    [POST /mcp/{function_name}] serves: for a body that parses, a name is in
    the advertised list exactly when the route does not answer it with the
    "not supported" error. *)
Theorem root_advertises_served_functions function_name body parameters e ts :
  json_loads body = Return parameters ->
  exists info names,
    root = VDict info /\
    PyDict.get info "functions" = Some (VList (map VStr names)) /\
    (In function_name names <->
     fst (handle_mcp_request function_name body e ts) <>
       Return (error ("Function " +:+ function_name +:+ " not supported"))).
Proof.
  intros Hloads. eexists _, (PyDict.keys handler_map).
  split; [reflexivity|]. split; [reflexivity|].
  unfold handle_mcp_request. rewrite handle_mcp_request_with_eq, Hloads.
  destruct (PyDict.get handler_map function_name) as [h|] eqn:Hh.
  - split; [|intros _; eapply PyDictFacts.get_In_keys; eauto].
    intros _.
    pose proof (handler_never_says_unsupported h parameters e ts function_name
                  (handler_map_handlers _ _ Hh)) as Hnot.
    destruct (h parameters e ts) as [[result|x] ts']; cbn [fst]; congruence.
  - split; [|intros Hne; now contradiction Hne].
    intros Hin. destruct (PyDictFacts.In_keys_get _ _ Hin) as [h Hsome].
    congruence.
Qed.

(** An authenticated request to get, create, update or delete whose body
    parses to something that is no dictionary (a list, a string, a number,
    true, false, null) is answered with status 200 and the message of the
    AttributeError, and the store is as before. *)
Theorem non_object_body credentials function_name body parameters e ts :
  verify_credentials credentials = Return credentials ->
  json_loads body = Return parameters ->
  is_dict parameters = false ->
  In function_name ["get_task"; "create_task"; "update_task"; "delete_task"] ->
  post_mcp credentials function_name body e ts =
    ({| status_code := 200; headers := [];
        content := error ("'" +:+ type_name parameters +:+
                          "' object has no attribute 'get'") |}, ts).
Proof.
  intros Hok Hloads Hd Hin. unfold post_mcp.
  apply post_mcp_with_payload; [assumption|].
  rewrite handle_mcp_request_with_eq, Hloads.
  simpl in Hin. destruct Hin as [<-|[<-|[<-|[<-|[]]]]].
  - change (PyDict.get handler_map "get_task") with (Some handle_get_task).
    cbv beta iota. now rewrite handle_get_task_not_dict.
  - change (PyDict.get handler_map "create_task") with (Some handle_create_task).
    cbv beta iota. now rewrite handle_create_task_not_dict.
  - change (PyDict.get handler_map "update_task") with (Some handle_update_task).
    cbv beta iota. now rewrite handle_update_task_not_dict.
  - change (PyDict.get handler_map "delete_task") with (Some handle_delete_task).
    cbv beta iota. now rewrite handle_delete_task_not_dict.
Qed.

(** An authenticated request to get, update or delete whose task_id is a
    non-empty list or dictionary is answered with status 200 and the message
    of the TypeError of hashing it, and the store is as before. *)
Theorem unhashable_task_id credentials function_name body d v e ts :
  verify_credentials credentials = Return credentials ->
  json_loads body = Return (VDict d) ->
  PyDict.get d "task_id" = Some v ->
  truthy v = true ->
  as_hashable v = None ->
  In function_name ["get_task"; "update_task"; "delete_task"] ->
  post_mcp credentials function_name body e ts =
    ({| status_code := 200; headers := [];
        content := error ("unhashable type: '" +:+ type_name v +:+ "'") |}, ts).
Proof.
  intros Hok Hloads Hv Htruthy Hkey Hin. unfold post_mcp.
  apply post_mcp_with_payload; [assumption|].
  rewrite handle_mcp_request_with_eq, Hloads.
  simpl in Hin. destruct Hin as [<-|[<-|[<-|[]]]].
  - change (PyDict.get handler_map "get_task") with (Some handle_get_task).
    cbv beta iota. rewrite handle_get_task_eq. cbv zeta.
    unfold PyDict.get_default. now rewrite Hv, Htruthy, Hkey.
  - change (PyDict.get handler_map "update_task") with (Some handle_update_task).
    cbv beta iota. rewrite handle_update_task_eq. cbv zeta.
    unfold PyDict.get_default. now rewrite Hv, Htruthy, Hkey.
  - change (PyDict.get handler_map "delete_task") with (Some handle_delete_task).
    cbv beta iota. rewrite handle_delete_task_eq. cbv zeta.
    unfold PyDict.get_default. now rewrite Hv, Htruthy, Hkey.
Qed.


(** The body is parsed before the function name is looked at: a body that
    [json.loads] rejects with a JSONDecodeError is answered with "Invalid
    JSON in request body" for every function name, served or not, and the
    store is as before. *)
Theorem malformed_body_comes_first hm credentials function_name body msg e ts :
  verify_credentials credentials = Return credentials ->
  json_loads body = Raise (JSONDecodeError msg) ->
  post_mcp_with hm credentials function_name body e ts =
    ({| status_code := 200; headers := [];
        content := error "Invalid JSON in request body" |}, ts).
Proof.
  intros Hok Hloads. apply post_mcp_with_payload; [assumption|].
  now rewrite handle_mcp_request_with_eq, Hloads.
Qed.

(** Requests keep the store reachable: whatever the credentials, the function
    name and the body, the store after a request to the route comes from the
    store before it by at most one call of a handler. *)
Theorem requests_keep_store_reachable credentials function_name body e ts :
  reachable ts ->
  reachable (snd (post_mcp credentials function_name body e ts)).
Proof.
  intros Hreach. unfold post_mcp, post_mcp_with.
  destruct (outcome_bind (http_basic credentials) verify_credentials)
    as [c|x]; [|assumption].
  rewrite handle_mcp_request_with_eq.
  destruct (json_loads body) as [parameters|x]; [|assumption].
  destruct (PyDict.get handler_map function_name) as [h|] eqn:Hh; [|assumption].
  pose proof (reachable_call h parameters e ts Hreach
                (handler_map_handlers _ _ Hh)) as Hnext.
  now destruct (h parameters e ts) as [[result|x] ts'].
Qed.

End Further.

(** * Examples on the seed store *)

#[local] Existing Instance no_float.
#[local] Existing Instance loads_example.

(** C1 as stated fails: after a first create, a second create whose token
    starts with the same eight characters returns an id the store already
    holds. *)
Lemma C1_counterexample :
  let ts1 := snd (handle_create_task (VDict write_spec) env_a tasks) in
  reachable ts1 /\
  PyDict.get write_spec "title" = Some (VStr "Write spec") /\
  truthy (VStr "Write spec") = true /\
  exists task ts2,
    handle_create_task (VDict write_spec) env_b ts1 =
      (Return (VDict [("task", VDict task); ("task_id", VStr "task-3f2b8c1a")]), ts2) /\
    PyDict.get task "id" = Some (VStr "task-3f2b8c1a") /\
    In "task-3f2b8c1a" (PyDict.keys ts1).
Proof.
  cbv zeta. split.
  - apply reachable_call; [apply reachable_seed|simpl; auto].
  - split; [reflexivity|]. split; [reflexivity|].
    vm_compute. eexists _, _. split; [reflexivity|]. split; [reflexivity|].
    auto 10.
Qed.

Lemma C1_create_id_and_status_witness :
  PyDict.get write_spec "title" = Some (VStr "Write spec") /\
  truthy (VStr "Write spec") = true /\
  exists task,
    handle_create_task (VDict write_spec) env_a tasks =
      (Return (VDict [("task", VDict task); ("task_id", VStr "task-3f2b8c1a")]),
       PyDict.set tasks "task-3f2b8c1a" task) /\
    PyDict.get task "id" = Some (VStr "task-3f2b8c1a") /\
    PyDict.get task "status" = Some (VStr "pending") /\
    ((forall k, In k (PyDict.keys tasks) -> k <> "task-3f2b8c1a") <->
     PyDict.contains tasks "task-3f2b8c1a" = false).
Proof.
  split; [reflexivity|]. split; [reflexivity|].
  exact (C1_create_id_and_status write_spec (VStr "Write spec") env_a tasks
           eq_refl eq_refl).
Defined.

Lemma C2_update_frame_witness :
  reachable tasks /\
  (exists t, PyDict.get tasks "task-001" = Some t) /\
  PyDict.get mark_done "task_id" = Some (VStr "task-001") /\
  exists t',
    handle_update_task (VDict mark_done) env_a tasks =
      (Return (VDict [("task", VDict t')]), PyDict.set tasks "task-001" t') /\
    PyDict.get t' "id" = Some (VStr "task-001") /\
    PyDict.get t' "created_at" = Some (VStr "2025-04-24T12:00:00Z") /\
    PyDict.get t' "owner" = None.
Proof.
  split; [apply reachable_seed|]. split; [eexists; reflexivity|].
  split; [reflexivity|].
  destruct (C2_update_frame tasks "task-001" _ mark_done env_a
              reachable_seed eq_refl eq_refl)
    as (t' & Hrun & _ & Hid & Hcreated & Hframe & _).
  exists t'. split; [exact Hrun|]. split; [exact Hid|]. split; [exact Hcreated|].
  rewrite Hframe; [reflexivity|]. left. simpl. intuition discriminate.
Defined.

Lemma C3_create_then_get_witness :
  PyDict.get write_spec "title" = Some (VStr "Write spec") /\
  truthy (VStr "Write spec") = true /\
  exists task task_id ts',
    handle_create_task (VDict write_spec) env_a tasks =
      (Return (VDict [("task", VDict task); ("task_id", VStr task_id)]), ts') /\
    handle_get_task (VDict [("task_id", VStr task_id)]) env_b ts' =
      (Return (VDict [("task", VDict task)]), ts').
Proof.
  split; [reflexivity|]. split; [reflexivity|].
  exact (C3_create_then_get write_spec (VStr "Write spec") env_a env_b tasks
           eq_refl eq_refl).
Defined.

(** C4 as stated fails: the empty string is not in the store, and deleting
    it is answered with the missing-parameter error, not with not-found. *)
Lemma C4_counterexample :
  PyDict.contains tasks "" = false /\
  handle_delete_task (VDict empty_task_id) env_a tasks =
    (Return (error "task_id parameter is required"), tasks) /\
  error "task_id parameter is required" <> error "Task with ID  not found".
Proof. split; [reflexivity|]. split; [reflexivity|discriminate]. Qed.

Lemma C4_delete_not_found_witness :
  PyDict.get unknown_task_id "task_id" = Some (VStr "task-999") /\
  truthy (VStr "task-999") = true /\
  as_hashable (VStr "task-999") = Some (HStr "task-999") /\
  find tasks (HStr "task-999") = None /\
  handle_delete_task (VDict unknown_task_id) env_a tasks =
    (Return (error "Task with ID task-999 not found"), tasks).
Proof.
  split; [reflexivity|]. split; [reflexivity|]. split; [reflexivity|].
  split; [reflexivity|].
  exact (proj1 (C4_delete_not_found unknown_task_id (VStr "task-999")
                  (HStr "task-999") env_a env_a env_b tasks
                  eq_refl eq_refl eq_refl) eq_refl).
Defined.


(** C6 as stated fails: the body [{"title": NaN}] parses, the create handler
    stores the task and returns it, and writing the answer out fails after
    the route has returned; this unexpected failure is answered with status
    500, not with status 200 and an error payload. *)
Lemma C6_counterexample :
  verify_credentials good_credentials = Return good_credentials /\
  @json_loads nan_float loads_nan body_nan_title = Return (VDict nan_title) /\
  (exists task,
     @handle_mcp_request nan_float loads_nan "create_task" body_nan_title env_a tasks =
       (Return (VDict [("task", VDict task); ("task_id", VStr "task-3f2b8c1a")]),
        PyDict.set tasks "task-3f2b8c1a" task)) /\
  @post_mcp nan_float loads_nan good_credentials "create_task" body_nan_title
    env_a tasks =
    ({| status_code := 500; headers := [];
        content := VStr "Internal Server Error" |},
     snd (@handle_create_task nan_float (VDict nan_title) env_a tasks)) /\
  PyDict.contains (snd (@handle_create_task nan_float (VDict nan_title) env_a tasks))
    "task-3f2b8c1a" = true.
Proof.
  split; [reflexivity|]. split; [reflexivity|].
  split; [eexists; vm_compute; reflexivity|].
  split; reflexivity.
Qed.

Lemma C6_faults_are_payloads_witness :
  verify_credentials good_credentials = Return good_credentials /\
  fault "get_task" [x7b; x7d] env_a tasks /\
  exists msg,
    post_mcp good_credentials "get_task" [x7b; x7d] env_a tasks =
      ({| status_code := 200; headers := []; content := error msg |}, tasks).
Proof.
  assert (Hfault : fault "get_task" [x7b; x7d] env_a tasks)
    by (apply (missing_parameter _ _ _ _ [] "task_id"); reflexivity).
  split; [reflexivity|]. split; [exact Hfault|].
  exact (proj2 (C6_faults_are_payloads good_credentials "get_task" [x7b; x7d]
                  env_a tasks eq_refl) Hfault).
Defined.

Lemma C7_unsupported_function_witness :
  verify_credentials good_credentials = Return good_credentials /\
  ~ In "unknown_fn"
      ["list_tasks"; "get_task"; "create_task"; "update_task"; "delete_task"] /\
  json_loads [x7b; x7d] = Return (VDict []) /\
  post_mcp good_credentials "unknown_fn" [x7b; x7d] env_a tasks =
    ({| status_code := 200; headers := [];
        content := error "Function unknown_fn not supported" |}, tasks).
Proof.
  assert (Hout : ~ In "unknown_fn"
            ["list_tasks"; "get_task"; "create_task"; "update_task"; "delete_task"])
    by (simpl; intuition discriminate).
  split; [reflexivity|]. split; [exact Hout|]. split; [reflexivity|].
  exact (proj1 (C7_unsupported_function good_credentials "unknown_fn" [x7b; x7d]
                  (VDict []) env_a tasks eq_refl Hout eq_refl)).
Defined.

Lemma C8_key_is_record_id_witness :
  let ts1 := snd (handle_create_task (VDict write_spec) env_a tasks) in
  reachable ts1 /\
  exists t,
    PyDict.get ts1 "task-3f2b8c1a" = Some t /\
    PyDict.get t "id" = Some (VStr "task-3f2b8c1a").
Proof.
  cbv zeta.
  assert (Hreach : reachable (snd (handle_create_task (VDict write_spec) env_a tasks)))
    by (apply reachable_call; [apply reachable_seed|simpl; auto]).
  split; [exact Hreach|].
  eexists. split; [reflexivity|].
  exact (C8_key_is_record_id _ Hreach "task-3f2b8c1a" _ eq_refl).
Defined.

Lemma C9_error_leaves_store_witness :
  In handle_delete_task handlers /\
  forall r ts',
    handle_delete_task (VDict unknown_task_id) env_a tasks = (Return (VDict r), ts') ->
    PyDict.contains r "error" = true -> ts' = tasks.
Proof.
  assert (Hin : In handle_delete_task handlers) by (simpl; auto 6).
  split; [exact Hin|].
  exact (proj1 (C9_error_leaves_store handle_delete_task (VDict unknown_task_id)
                  env_a tasks Hin)).
Defined.

Lemma C10_falsy_task_id_witness :
  PyDict.get empty_task_id "task_id" = Some (VStr "") /\
  truthy (VStr "") = false /\
  handle_get_task (VDict empty_task_id) env_a tasks =
    (Return (error "task_id parameter is required"), tasks) /\
  handle_update_task (VDict empty_task_id) env_a tasks =
    (Return (error "task_id parameter is required"), tasks) /\
  handle_delete_task (VDict empty_task_id) env_a tasks =
    (Return (error "task_id parameter is required"), tasks) /\
  (reachable tasks ->
   forall key, as_hashable (VStr "") = Some key -> find tasks key = None).
Proof.
  split; [reflexivity|]. split; [reflexivity|].
  exact (C10_falsy_task_id empty_task_id (VStr "") env_a tasks eq_refl eq_refl).
Defined.

(** ** Scenarios *)

Example scenario_create :
  fst (handle_create_task (VDict write_spec) env_a tasks) =
    Return (VDict
      [ ("task", VDict
           [ ("id", VStr "task-3f2b8c1a");
             ("title", VStr "Write spec");
             ("description", VStr "");
             ("status", VStr "pending");
             ("priority", VStr "medium");
             ("created_at", VStr "2025-04-25T09:00:00.000001");
             ("due_date", VNone) ]);
        ("task_id", VStr "task-3f2b8c1a") ]).
Proof. reflexivity. Qed.

Example scenario_create_appends :
  PyDict.keys (snd (handle_create_task (VDict write_spec) env_a tasks)) =
    ["task-001"; "task-002"; "task-3f2b8c1a"].
Proof. reflexivity. Qed.

Example scenario_get_without_task_id :
  post_mcp good_credentials "get_task" [x7b; x7d] env_a tasks =
    ({| status_code := 200; headers := [];
        content := error "task_id parameter is required" |}, tasks).
Proof. reflexivity. Qed.

Example scenario_delete_then_get :
  let parameters := VDict [("task_id", VStr "task-001")] in
  let ts1 := snd (handle_delete_task parameters env_a tasks) in
  PyDict.keys ts1 = ["task-002"] /\
  handle_get_task parameters env_b ts1 =
    (Return (error "Task with ID task-001 not found"), ts1).
Proof. split; reflexivity. Qed.

Example scenario_update :
  let ts1 := snd (handle_update_task (VDict mark_done) env_a tasks) in
  option_map (fun t => (PyDict.get t "status", PyDict.get t "priority",
                        PyDict.get t "owner"))
             (PyDict.get ts1 "task-001") =
    Some (Some (VStr "done"), Some (VStr "high"), None).
Proof. reflexivity. Qed.

Example scenario_malformed_body :
  post_mcp good_credentials "list_tasks" [] env_a tasks =
    ({| status_code := 200; headers := [];
        content := error "Invalid JSON in request body" |}, tasks).
Proof. reflexivity. Qed.

Example scenario_integer_task_id :
  handle_get_task (VDict [("task_id", VInt 7)]) env_a tasks =
    (Return (error "Task with ID 7 not found"), tasks).
Proof. reflexivity. Qed.

Example scenario_list_task_id :
  handle_delete_task (VDict [("task_id", VList [VInt 1])]) env_a tasks =
    (Raise (TypeError "unhashable type: 'list'"), tasks) /\
  caught (TypeError "unhashable type: 'list'") =
    error "unhashable type: 'list'".
Proof. split; reflexivity. Qed.

Example scenario_parameters_not_a_dict :
  handle_get_task (VList []) env_a tasks =
    (Raise (AttributeError "'list' object has no attribute 'get'"), tasks) /\
  fst (handle_list_tasks (VList []) env_a tasks) =
    Return (VDict [("tasks", VList (map VDict (PyDict.values tasks)))]).
Proof. split; reflexivity. Qed.

Example scenario_wrong_password :
  fst (post_mcp {| username := "instabids"; password := "secure123passwore" |}
         "list_tasks" [x7b; x7d] env_a tasks) = unauthorized.
Proof. reflexivity. Qed.

(** ** Examples for the further properties *)

Lemma create_placement_witness :
  truthy (PyDict.get_default write_spec "title" VNone) = true /\
  PyDict.keys (snd (handle_create_task (VDict write_spec) env_a tasks)) =
    ["task-001"; "task-002"; "task-3f2b8c1a"].
Proof.
  split; [reflexivity|].
  exact (proj1 (proj2 (create_placement write_spec env_a tasks eq_refl)) eq_refl).
Defined.

Lemma create_reads_four_parameters_witness :
  (forall f, In f create_fields ->
     PyDict.get write_spec f = PyDict.get write_spec_as_done f) /\
  handle_create_task (VDict write_spec) env_a tasks =
  handle_create_task (VDict write_spec_as_done) env_a tasks.
Proof.
  assert (Hagree : forall f, In f create_fields ->
            PyDict.get write_spec f = PyDict.get write_spec_as_done f).
  { intros f Hin. simpl in Hin.
    destruct Hin as [<-|[<-|[<-|[<-|[]]]]]; reflexivity. }
  split; [exact Hagree|].
  exact (create_reads_four_parameters write_spec write_spec_as_done env_a tasks Hagree).
Defined.

Lemma create_requires_title_witness :
  (exists v, PyDict.get empty_title "title" = Some v /\ truthy v = false) /\
  handle_create_task (VDict empty_title) env_a tasks =
    (Return (error "title parameter is required"), tasks).
Proof.
  assert (Hfalsy : exists v, PyDict.get empty_title "title" = Some v /\
                             truthy v = false)
    by (exists (VStr ""); split; reflexivity).
  split; [exact Hfalsy|].
  exact (create_requires_title empty_title env_a tasks (or_intror Hfalsy)).
Defined.

Lemma create_then_delete_witness :
  truthy (PyDict.get_default write_spec "title" VNone) = true /\
  PyDict.contains tasks "task-3f2b8c1a" = false /\
  exists task task_id ts',
    handle_create_task (VDict write_spec) env_a tasks =
      (Return (VDict [("task", VDict task); ("task_id", VStr task_id)]), ts') /\
    handle_delete_task (VDict [("task_id", VStr task_id)]) env_b ts' =
      (Return (VDict [("success", VBool true); ("deleted_task", VDict task)]), tasks).
Proof.
  split; [reflexivity|]. split; [reflexivity|].
  exact (create_then_delete write_spec env_a env_b tasks eq_refl eq_refl).
Defined.

Lemma create_then_list_witness :
  truthy (PyDict.get_default write_spec "title" VNone) = true /\
  PyDict.contains tasks "task-3f2b8c1a" = false /\
  exists task task_id ts',
    handle_create_task (VDict write_spec) env_a tasks =
      (Return (VDict [("task", VDict task); ("task_id", VStr task_id)]), ts') /\
    fst (handle_list_tasks VNone env_b ts') =
      Return (VDict [("tasks",
                VList (map VDict (PyDict.values tasks ++ [task])%list))]).
Proof.
  split; [reflexivity|]. split; [reflexivity|].
  exact (create_then_list write_spec env_a env_b VNone tasks eq_refl eq_refl).
Defined.

Lemma get_returns_stored_witness :
  reachable tasks /\
  exists t,
    PyDict.get tasks "task-002" = Some t /\
    PyDict.get second_task_id "task_id" = Some (VStr "task-002") /\
    handle_get_task (VDict second_task_id) env_a tasks =
      (Return (VDict [("task", VDict t)]), tasks).
Proof.
  split; [apply reachable_seed|].
  eexists. split; [reflexivity|]. split; [reflexivity|].
  exact (get_returns_stored tasks "task-002" _ second_task_id env_a
           reachable_seed eq_refl eq_refl).
Defined.

Lemma update_writes_fields_witness :
  reachable tasks /\
  (exists t, PyDict.get tasks "task-001" = Some t) /\
  PyDict.get mark_done "task_id" = Some (VStr "task-001") /\
  exists t',
    PyDict.get (snd (handle_update_task (VDict mark_done) env_a tasks)) "task-001"
      = Some t' /\
    PyDict.get t' "status" = Some (VStr "done") /\
    PyDict.get t' "priority" = Some (VStr "high").
Proof.
  split; [apply reachable_seed|]. split; [eexists; reflexivity|].
  split; [reflexivity|].
  destruct (update_writes_fields tasks "task-001" _ mark_done env_a
              reachable_seed eq_refl eq_refl) as (t' & Hstored & Hfields).
  exists t'. split; [exact Hstored|]. split.
  - rewrite (Hfields "status"); [reflexivity|simpl; auto 6].
  - rewrite (Hfields "priority"); [reflexivity|simpl; auto 6].
Defined.

Lemma update_idempotent_witness :
  reachable tasks /\
  (exists t, PyDict.get tasks "task-001" = Some t) /\
  PyDict.get mark_done "task_id" = Some (VStr "task-001") /\
  handle_update_task (VDict mark_done) env_b
    (snd (handle_update_task (VDict mark_done) env_a tasks)) =
  handle_update_task (VDict mark_done) env_a tasks.
Proof.
  split; [apply reachable_seed|]. split; [eexists; reflexivity|].
  split; [reflexivity|].
  exact (update_idempotent tasks "task-001" _ mark_done env_a env_b
           reachable_seed eq_refl eq_refl).
Defined.

Lemma update_then_get_witness :
  reachable tasks /\
  (exists t, PyDict.get tasks "task-001" = Some t) /\
  PyDict.get mark_done "task_id" = Some (VStr "task-001") /\
  exists t' ts',
    handle_update_task (VDict mark_done) env_a tasks =
      (Return (VDict [("task", VDict t')]), ts') /\
    handle_get_task (VDict [("task_id", VStr "task-001")]) env_b ts' =
      (Return (VDict [("task", VDict t')]), ts').
Proof.
  split; [apply reachable_seed|]. split; [eexists; reflexivity|].
  split; [reflexivity|].
  exact (update_then_get tasks "task-001" _ mark_done env_a env_b
           reachable_seed eq_refl eq_refl).
Defined.

Lemma update_touches_one_record_witness :
  PyDict.get_default mark_done "task_id" VNone <> VStr "task-002" /\
  PyDict.get (snd (handle_update_task (VDict mark_done) env_a tasks)) "task-002" =
  PyDict.get tasks "task-002".
Proof.
  assert (Hother : PyDict.get_default mark_done "task_id" VNone <> VStr "task-002")
    by (cbv; discriminate).
  split; [exact Hother|].
  exact (update_touches_one_record mark_done env_a tasks "task-002" Hother).
Defined.

Lemma delete_removes_one_record_witness :
  "task-002" <> "" /\
  (exists t, PyDict.get tasks "task-002" = Some t) /\
  PyDict.get second_task_id "task_id" = Some (VStr "task-002") /\
  exists t ts',
    handle_delete_task (VDict second_task_id) env_a tasks =
      (Return (VDict [("success", VBool true); ("deleted_task", VDict t)]), ts') /\
    PyDict.get ts' "task-002" = None /\
    PyDict.keys ts' = ["task-001"].
Proof.
  assert (Hne : "task-002" <> "") by discriminate.
  split; [exact Hne|]. split; [eexists; reflexivity|]. split; [reflexivity|].
  destruct (delete_removes_one_record tasks "task-002" _ second_task_id env_a
              Hne eq_refl eq_refl) as (ts' & Hrun & Hgone & _ & Hkeys).
  eexists _, ts'. split; [exact Hrun|]. split; [exact Hgone|exact Hkeys].
Defined.

Lemma reachable_schema_witness :
  let ts1 := snd (handle_update_task (VDict mark_done) env_a tasks) in
  reachable ts1 /\
  exists t,
    PyDict.get ts1 "task-001" = Some t /\
    String.prefix "task-" "task-001" = true /\
    PyDict.keys t = task_fields.
Proof.
  cbv zeta.
  assert (Hreach : reachable (snd (handle_update_task (VDict mark_done) env_a tasks)))
    by (apply reachable_call; [apply reachable_seed|simpl; auto 6]).
  split; [exact Hreach|].
  eexists. split; [reflexivity|].
  exact (reachable_schema _ Hreach "task-001" _ eq_refl).
Defined.

Lemma list_returns_each_task_once_witness :
  reachable tasks /\
  exists records,
    handle_list_tasks (VList []) env_a tasks =
      (Return (VDict [("tasks", VList (map VDict records))]), tasks) /\
    map (fun t => PyDict.get t "id") records =
      [Some (VStr "task-001"); Some (VStr "task-002")] /\
    List.NoDup (PyDict.keys tasks).
Proof.
  split; [apply reachable_seed|].
  exact (list_returns_each_task_once (VList []) env_a tasks reachable_seed).
Defined.

Lemma only_configured_credentials_pass_witness :
  ~ (username accented_credentials = USERNAME /\
     password accented_credentials = PASSWORD) /\
  (forall c, verify_credentials accented_credentials <> Return c) /\
  exists detail,
    post_mcp_with handler_map accented_credentials "delete_task" [x7b; x7d]
      env_a tasks =
      ({| status_code := 401;
          headers := [("WWW-Authenticate", "Basic")];
          content := VDict [("detail", VStr detail)] |}, tasks).
Proof.
  assert (Hother : ~ (username accented_credentials = USERNAME /\
                      password accented_credentials = PASSWORD))
    by (intros [Hu _]; discriminate Hu).
  split; [exact Hother|].
  exact (only_configured_credentials_pass handler_map accented_credentials
           "delete_task" [x7b; x7d] env_a tasks Hother).
Defined.

Lemma root_advertises_served_functions_witness :
  json_loads [x7b; x7d] = Return (VDict []) /\
  exists info names,
    root = VDict info /\
    PyDict.get info "functions" = Some (VList (map VStr names)) /\
    (In "get_task" names <->
     fst (handle_mcp_request "get_task" [x7b; x7d] env_a tasks) <>
       Return (error ("Function " +:+ "get_task" +:+ " not supported"))).
Proof.
  split; [reflexivity|].
  exact (root_advertises_served_functions "get_task" [x7b; x7d] (VDict [])
           env_a tasks eq_refl).
Defined.

Lemma non_object_body_witness :
  verify_credentials good_credentials = Return good_credentials /\
  @json_loads no_float loads_more body_list = Return (VList []) /\
  is_dict (VList []) = false /\
  In "update_task" ["get_task"; "create_task"; "update_task"; "delete_task"] /\
  @post_mcp no_float loads_more good_credentials "update_task" body_list env_a tasks =
    ({| status_code := 200; headers := [];
        content := error "'list' object has no attribute 'get'" |}, tasks).
Proof.
  assert (Hin : In "update_task"
                  ["get_task"; "create_task"; "update_task"; "delete_task"])
    by (simpl; auto 6).
  split; [reflexivity|]. split; [reflexivity|]. split; [reflexivity|].
  split; [exact Hin|].
  exact (non_object_body (JL:=loads_more) good_credentials "update_task" body_list
           (VList []) env_a tasks eq_refl eq_refl eq_refl Hin).
Defined.

Lemma unhashable_task_id_witness :
  verify_credentials good_credentials = Return good_credentials /\
  @json_loads no_float loads_more body_task_id_list =
    Return (VDict [("task_id", VList [VInt 1])]) /\
  truthy (VList [VInt 1]) = true /\
  as_hashable (VList [VInt 1]) = None /\
  In "delete_task" ["get_task"; "update_task"; "delete_task"] /\
  @post_mcp no_float loads_more good_credentials "delete_task" body_task_id_list
    env_a tasks =
    ({| status_code := 200; headers := [];
        content := error "unhashable type: 'list'" |}, tasks).
Proof.
  assert (Hin : In "delete_task" ["get_task"; "update_task"; "delete_task"])
    by (simpl; auto 6).
  split; [reflexivity|]. split; [reflexivity|]. split; [reflexivity|].
  split; [reflexivity|]. split; [exact Hin|].
  exact (unhashable_task_id (JL:=loads_more) good_credentials "delete_task"
           body_task_id_list [("task_id", VList [VInt 1])] (VList [VInt 1])
           env_a tasks eq_refl eq_refl eq_refl eq_refl eq_refl Hin).
Defined.

Lemma handlers_read_only_their_parameters_witness :
  PyDict.get second_task_id "task_id" =
    PyDict.get (("verbose", VBool true) :: second_task_id) "task_id" /\
  handle_delete_task (VDict second_task_id) env_a tasks =
  handle_delete_task (VDict (("verbose", VBool true) :: second_task_id)) env_a tasks.
Proof.
  split; [reflexivity|].
  exact (proj1 (proj2 (handlers_read_only_their_parameters second_task_id
                         (("verbose", VBool true) :: second_task_id) env_a tasks
                         eq_refl))).
Defined.


Lemma malformed_body_comes_first_witness :
  verify_credentials good_credentials = Return good_credentials /\
  json_loads [] = Raise (JSONDecodeError "Expecting value: line 1 column 1 (char 0)") /\
  post_mcp_with handler_map good_credentials "unknown_fn" [] env_a tasks =
    ({| status_code := 200; headers := [];
        content := error "Invalid JSON in request body" |}, tasks).
Proof.
  split; [reflexivity|]. split; [reflexivity|].
  exact (malformed_body_comes_first handler_map good_credentials "unknown_fn" []
           _ env_a tasks eq_refl eq_refl).
Defined.

Lemma requests_keep_store_reachable_witness :
  reachable tasks /\
  reachable (snd (post_mcp good_credentials "get_task" [x7b; x7d] env_a tasks)).
Proof.
  split; [apply reachable_seed|].
  exact (requests_keep_store_reachable good_credentials "get_task" [x7b; x7d]
           env_a tasks reachable_seed).
Defined.

Example scenario_non_ascii_username :
  post_mcp accented_credentials "list_tasks" [x7b; x7d] env_a tasks =
    ({| status_code := 401;
        headers := [("WWW-Authenticate", "Basic")];
        content := VDict [("detail", VStr "Invalid authentication credentials")] |},
     tasks).
Proof. reflexivity. Qed.
